(** * Resampling engine of [resampled]: bootstrap and permutation tests

    A shallow embedding of [src/resampled.py] (class [Resample]) and of the
    two legacy classes [src/bootstrap.py] ([Bootstrap]) and
    [src/permutation.py] ([permutation]), together with the part of pandas
    and numpy those files call.

    A pandas [DataFrame] is a row index and a list of labelled columns, a
    [Series] is the list of its cells; a numeric cell is a finite number,
    held by its value in [Q].  The values that the caller's statistic
    returns are kept apart from the cells: [run_hypothesis] and the legacy
    [calculate_pvalue] work over any arithmetic of such values
    ([Scalar]), of which binary64 and exact rationals are instances;
    [estimate_ci], which interpolates percentiles, is modelled over exact
    rationals.  numpy's random generator is an interface ([RandomState])
    whose state, global in the code, is threaded explicitly through every
    call that draws from it. *)

From Stdlib Require Import String List ZArith QArith Qround Bool Arith Lia Lqa.
From Stdlib Require Import Permutation SpecFloat.
Import ListNotations.

Local Open Scope string_scope.
Local Open Scope Q_scope.

(** ** Exceptions and results *)

(** The Python exceptions the modelled code can raise.  [SystemExit] is what
    [sys.exit(msg)] raises; [Raised] stands for an exception coming out of
    the user's statistic function. *)
Inductive exn : Type :=
| KeyError
| TypeError
| ValueError
| SystemExit (msg : string)
| Raised (tag : string).

Inductive result (A : Type) : Type :=
| Ok (a : A)
| Err (e : exn).

Arguments Ok {A} a.
Arguments Err {A} e.

(** A computation that may raise and that reads and advances the state [G]
    of the random generator. *)
Definition M (G A : Type) : Type := G -> result (A * G).

Definition ret {G A : Type} (a : A) : M G A :=
  fun g => Ok (a, g).

Definition bind {G A B : Type} (m : M G A) (k : A -> M G B) : M G B :=
  fun g => match m g with
           | Ok (a, g') => k a g'
           | Err e => Err e
           end.

Definition lift {G A : Type} (r : result A) : M G A :=
  fun g => match r with
           | Ok a => Ok (a, g)
           | Err e => Err e
           end.

Definition raise {G A : Type} (e : exn) : M G A :=
  fun _ => Err e.

Notation "'do' x <- e ; k" := (bind e (fun x => k))
  (at level 10, x name, e at level 100, k at level 200).

(** [for i in range(0, n): acc = body(acc)] where the body ignores [i]. *)
Fixpoint for_range {G A : Type} (n : nat) (body : A -> M G A) (acc : A) : M G A :=
  match n with
  | O => ret acc
  | S n' => do acc' <- body acc; for_range n' body acc'
  end.

(** Monadic map over a list in the pure error monad. *)
Fixpoint mapR {A B : Type} (f : A -> result B) (l : list A) : result (list B) :=
  match l with
  | [] => Ok []
  | a :: l' =>
      match f a with
      | Err e => Err e
      | Ok b => match mapR f l' with
                | Err e => Err e
                | Ok bs => Ok (b :: bs)
                end
      end
  end.

(** ** Cells, series and data frames *)

(** A cell holds a number or a string; group labels are documented as
    [str/int/float], target values are numbers. *)
Inductive cell : Type :=
| Num (q : Q)
| Str (s : string).

(** Python's [==] on two cells. *)
Definition cell_eqb (a b : cell) : bool :=
  match a, b with
  | Num x, Num y => Qeq_bool x y
  | Str s, Str t => String.eqb s t
  | _, _ => false
  end.

(** A column label: a name given by the caller, or the integer position
    that [pd.concat(..., ignore_index=True)] assigns. *)
Inductive colname : Type :=
| CStr (s : string)
| CInt (z : Z).

Definition colname_eqb (a b : colname) : bool :=
  match a, b with
  | CStr s, CStr t => String.eqb s t
  | CInt x, CInt y => Z.eqb x y
  | _, _ => false
  end.

Definition Series : Type := list cell.

Record DataFrame : Type := mkDataFrame {
  index : list Z;
  columns : list (colname * Series)
}.

(** [df.shape[0]] *)
Definition shape0 (df : DataFrame) : nat := length (index df).

(** Representation invariant: every column has one cell per row. *)
Definition wf_frame (df : DataFrame) : Prop :=
  Forall (fun c => length (snd c) = length (index df)) (columns df).

Fixpoint lookup_col (c : colname) (cols : list (colname * Series)) : result Series :=
  match cols with
  | [] => Err KeyError
  | (c', s) :: rest => if colname_eqb c c' then Ok s else lookup_col c rest
  end.

(** [df[name]] and [df.loc[:, name]]: the column, or [KeyError]. *)
Definition getitem (c : colname) (df : DataFrame) : result Series :=
  lookup_col c (columns df).

(** [df[[n1, n2, ...]]]: the named columns in the requested order. *)
Definition getitem_cols (names : list colname) (df : DataFrame) : result DataFrame :=
  match mapR (fun c => match lookup_col c (columns df) with
                       | Ok s => Ok (c, s)
                       | Err e => Err e
                       end) names with
  | Ok cols => Ok (mkDataFrame (index df) cols)
  | Err e => Err e
  end.

(** [series == v], element-wise. *)
Definition eq_mask (s : Series) (v : cell) : list bool :=
  map (fun c => cell_eqb c v) s.

(** [m1 | m2], element-wise. *)
Fixpoint mask_or (m1 m2 : list bool) : list bool :=
  match m1, m2 with
  | a :: m1', b :: m2' => (a || b)%bool :: mask_or m1' m2'
  | _, _ => []
  end.

(** The entries of [l] at the positions where the mask holds. *)
Fixpoint select {A : Type} (m : list bool) (l : list A) : list A :=
  match m, l with
  | b :: m', a :: l' => if b then a :: select m' l' else select m' l'
  | _, _ => []
  end.

(** [df[mask]]: boolean row selection; the kept rows keep their index. *)
Definition getitem_mask (m : list bool) (df : DataFrame) : DataFrame :=
  mkDataFrame (select m (index df))
              (map (fun c => (fst c, select m (snd c))) (columns df)).

Definition has_col (c : colname) (df : DataFrame) : bool :=
  existsb (fun c' => colname_eqb c (fst c')) (columns df).

Fixpoint zrange (start : Z) (n : nat) : list Z :=
  match n with
  | O => []
  | S n' => start :: zrange (start + 1) n'
  end.

(** [df.reset_index()]: the old index becomes a first column named
    ["index"], the rows are renumbered from 0.  A frame that already has
    a column of that name is outside the model, which raises there
    (pandas would call the new column ["level_0"]); the valid calls below
    have no such column. *)
Definition reset_index (df : DataFrame) : result DataFrame :=
  if has_col (CStr "index") df then Err ValueError
  else Ok (mkDataFrame (zrange 0 (shape0 df))
             ((CStr "index", map (fun i => Num (inject_Z i)) (index df))
                :: columns df)).

(** [df.drop(columns=[name])] *)
Definition drop_column (c : colname) (df : DataFrame) : result DataFrame :=
  if has_col c df
  then Ok (mkDataFrame (index df)
             (filter (fun c' => negb (colname_eqb c (fst c'))) (columns df)))
  else Err KeyError.

Definition relabel (cols : list Series) : list (colname * Series) :=
  combine (map CInt (zrange 0 (length cols))) cols.

(** [pd.concat([df, b], axis=1, ignore_index=True)] for a frame and a
    series that both carry the row index 0..n-1: the series becomes the
    last column and the columns are renumbered 0, 1, 2, ... *)
Definition concat_axis1_ignore_index (df : DataFrame) (b : Series) : DataFrame :=
  mkDataFrame (index df) (relabel (map snd (columns df) ++ [b])).

Definition is_int_label (c : colname) : bool :=
  match c with
  | CInt _ => true
  | CStr _ => false
  end.

Definition in_slice (lo hi : Z) (c : colname) : bool :=
  match c with
  | CInt k => (lo <=? k)%Z && (k <=? hi)%Z
  | CStr _ => false
  end.

(** [df.loc[:, lo:hi]]: label slice over the columns, both ends included.
    Integer bounds on an index of names raise [TypeError]. *)
Definition loc_slice (lo hi : Z) (df : DataFrame) : result DataFrame :=
  if forallb (fun c => is_int_label (fst c)) (columns df)
  then Ok (mkDataFrame (index df)
             (filter (fun c => in_slice lo hi (fst c)) (columns df)))
  else Err TypeError.

(** ** The values of a statistic

    The caller's statistic function returns numpy scalars.  The engine
    does two things with them: it subtracts one from another
    ([func(x)-func(y)], and the same operator element by element on two
    series of them) and it tests one against zero ([... >= 0]).
    [Scalar V] is a type of such values with these two operations, as
    the arithmetic of the values has them. *)
Class Scalar (V : Type) : Type := {
  ssub : V -> V -> V;
  sge0 : V -> bool
}.

(** Arithmetic without rounding on rationals: what binary64 computes as
    long as every value and every difference is a binary64 number. *)
#[global] Instance exact_scalar : Scalar Q :=
  {| ssub := Qminus; sge0 := Qle_bool 0 |}.

(** binary64, numpy's [float64]: subtraction rounds to nearest, overflows
    to an infinity, and gives NaN on two infinities of one sign; NaN
    compares false with everything. *)
#[global] Instance binary64_scalar : Scalar spec_float :=
  {| ssub := SFsub 53 1024; sge0 := SFleb (S754_zero false) |}.

(** A series of statistics, labelled by the column each one comes from. *)
Definition Stats (V : Type) : Type := list (colname * V).

(** A series of exact statistics. *)
Definition StatSeries : Type := Stats Q.

Definition values {V : Type} (s : Stats V) : list V := map snd s.

(** [df.apply(func, axis=0)]: [func] is called once on every column, in
    column order; what it raises propagates.  (On a frame without rows
    pandas calls a reducing [func] on an empty series and repeats its
    answer for every column, which is the same series of statistics.) *)
Definition apply_axis0 {V : Type} (func : Series -> result V) (df : DataFrame)
    : result (Stats V) :=
  mapR (fun c => match func (snd c) with
                 | Ok q => Ok (fst c, q)
                 | Err e => Err e
                 end) (columns df).

(** [s1 - s2] for two statistic series that carry the same labels in the
    same order (both come from the same column slice), so that pandas'
    alignment pairs them position by position. *)
Fixpoint series_sub {V : Type} `{Scalar V} (s1 s2 : Stats V) : Stats V :=
  match s1, s2 with
  | (l, a) :: s1', (_, b) :: s2' => (l, ssub a b) :: series_sub s1' s2'
  | _, _ => []
  end.

(** [np.sum] of a boolean array: the number of [True] entries. *)
Definition np_sum_bool (m : list bool) : Z :=
  Z.of_nat (length (filter (fun b => b) m)).

(** [df.rename(columns={old: new}, inplace=True)] *)
Definition rename_column (old new : colname) (df : DataFrame) : DataFrame :=
  mkDataFrame (index df)
    (map (fun c => if colname_eqb (fst c) old then (new, snd c) else c) (columns df)).

(** ** numpy: random generator and percentile *)

(** numpy's generator, as far as [Series.sample] uses it:
    [choice a size replace g] is [rs.choice(a, size=size, replace=replace)]
    run in generator state [g]; it returns [size] positions in [range(a)]
    and the next state.  The three laws are numpy's contract: the number
    of draws, their range, and that draws without replacement never
    repeat a position. *)
Class RandomState (G : Type) : Type := {
  choice : nat -> nat -> bool -> G -> list nat * G;
  choice_length : forall a size replace g,
    replace = true \/ (size <= a)%nat ->
    length (fst (choice a size replace g)) = size;
  choice_range : forall a size replace g,
    (0 < a)%nat -> Forall (fun i => (i < a)%nat) (fst (choice a size replace g));
  choice_nodup : forall a size g,
    (size <= a)%nat -> NoDup (fst (choice a size false g))
}.

(** [series.take(locs)]: the cells at the given positions. *)
Definition take (locs : list nat) (s : Series) : Series :=
  map (fun i => nth i s (Num 0)) locs.

(** [series.sample(n=n, replace=replace)]: pandas draws [n] positions
    with [choice] and takes them.  numpy refuses to draw from an empty
    population and to draw more than the population without replacement. *)
Definition sample {G : Type} `{RandomState G}
    (s : Series) (n : nat) (replace : bool) : M G Series :=
  fun g =>
    if ((length s =? 0)%nat && negb (n =? 0)%nat)%bool then Err ValueError
    else if (negb replace && (length s <? n)%nat)%bool then Err ValueError
    else let (locs, g') := choice (length s) n replace g in
         Ok (take locs s, g').

(** [b.reset_index(drop=True)]: the sampled series is renumbered 0..n-1;
    a series being the list of its cells, nothing else changes. *)
Definition reset_index_drop (b : Series) : Series := b.

Fixpoint insert_sorted (x : Q) (l : list Q) : list Q :=
  match l with
  | [] => [x]
  | y :: l' => if Qle_bool x y then x :: l else y :: insert_sorted x l'
  end.

Fixpoint sort (l : list Q) : list Q :=
  match l with
  | [] => []
  | x :: l' => insert_sorted x (sort l')
  end.

(** numpy's linear method at the virtual position [v] of the sorted data
    [s]: the order statistic below [v], plus the fractional part of [v]
    times the step to the next order statistic (the last one at most). *)
Definition interpolate (s : list Q) (v : Q) : Q :=
  let previous := Z.to_nat (Qfloor v) in
  let next := Nat.min (S previous) (length s - 1) in
  let gamma := v - inject_Z (Qfloor v) in
  nth previous s 0 + (nth next s 0 - nth previous s 0) * gamma.

(** [np.percentile(a, q)] with numpy's default linear method: the data
    are sorted and interpolated at the virtual position [(n-1) * q/100].
    [q] outside [0, 100] raises [ValueError].  The engine never passes an
    empty array (numpy has no number to answer there, and the model
    raises). *)
Definition np_percentile (a : list Q) (q : Q) : result Q :=
  if negb (Qle_bool 0 q && Qle_bool q 100) then Err ValueError
  else match a with
       | [] => Err ValueError
       | _ =>
           let s := sort a in
           let n := length s in
           Ok (interpolate s (inject_Z (Z.of_nat n - 1) * (q / 100)))
       end.

(** ** Statistic functions *)

Definition is_num (c : cell) : bool :=
  match c with
  | Num _ => true
  | Str _ => false
  end.

Definition num_of (c : cell) : Q :=
  match c with
  | Num q => q
  | Str _ => 0
  end.

Definition Qsum (l : list Q) : Q := fold_right Qplus 0 l.

(** A numeric statistic [f] as a Python callable: it raises [TypeError]
    when the series holds a cell that is not a number. *)
Definition numeric_stat {V : Type} (f : list Q -> V) (s : Series) : result V :=
  if forallb is_num s then Ok (f (map num_of s)) else Err TypeError.

(** The next three statistics are numpy's without rounding, to be used
    where numpy does not round either (a maximum; a sum or a mean of a
    few small integers).  [Q] has no NaN: on the empty series, where
    [np.mean] and [np.max] answer NaN, these functions answer 0; the
    examples below apply the two to groups that are not empty. *)


Definition mean (l : list Q) : Q := Qsum l / inject_Z (Z.of_nat (length l)).

(** [np.mean] on a series that is not empty. *)
Definition np_mean : Series -> result Q := numeric_stat mean.

Definition maximum (l : list Q) : Q :=
  fold_right (fun a b => if Qle_bool b a then a else b) (hd 0 l) l.

(** [np.max] on a series that is not empty. *)
Definition np_max : Series -> result Q := numeric_stat maximum.

(** The cell [q] as a binary64 number.  A cell of a [float64] column is
    a binary64 number, so its denominator is a power of two, and
    rounding [numerator * 2^-k] to nearest gives the cell back.  (Other
    rationals do not occur in such a column; they are given the quotient
    of the rounded numerator and denominator.) *)
Definition to_binary64 (q : Q) : spec_float :=
  let k := Z.log2 (Zpos (Qden q)) in
  if (Zpos (Qden q) =? 2 ^ k)%Z
  then binary_normalize 53 1024 (Qnum q) (- k) false
  else SFdiv 53 1024 (binary_normalize 53 1024 (Qnum q) 0 false)
                     (binary_normalize 53 1024 (Zpos (Qden q)) 0 false).

Definition maximum64 (l : list Q) : spec_float :=
  match l with
  | [] => S754_nan
  | _ => to_binary64 (maximum l)
  end.

(** [np.max] on a [float64] series: the largest cell, NaN when there is
    none. *)
Definition np_max64 : Series -> result spec_float := numeric_stat maximum64.

(** ** Valid calls and reference quantities *)

(** [func] is a total numeric statistic: on every series of numbers it
    returns the value of the function [f]. *)
Definition stat_total {V : Type} (func : Series -> result V) (f : list Q -> V)
    : Prop :=
  forall l, func (map Num l) = Ok (f l).

(** A call is valid when the frame is well formed, holds the grouping
    column [levels] (cells [labs]) and the numeric target column [target]
    (numbers [qs]) under two different names, and neither is called
    ["index"]. *)
Record valid_call (df : DataFrame) (target levels : string)
    (labs : Series) (qs : list Q) : Prop := mkValid {
  vc_wf : wf_frame df;
  vc_levels : getitem (CStr levels) df = Ok labs;
  vc_target : getitem (CStr target) df = Ok (map Num qs);
  vc_distinct : levels <> target;
  vc_levels_index : levels <> "index";
  vc_target_index : target <> "index"
}.

(** The rows the two-group test keeps. *)
Definition restricted_mask (labs : Series) (lvl1 lvl2 : cell) : list bool :=
  mask_or (eq_mask labs lvl1) (eq_mask labs lvl2).

(** Labels 1..R of the resample columns. *)
Definition sample_labels (R : Z) : list colname :=
  map CInt (zrange 1 (Z.to_nat R)).

(** The statistic [f] on the cells of [s] in the rows labelled [lvl]. *)
Definition group_stat {V : Type} (f : list Q -> V) (labs : Series) (lvl : cell)
    (s : Series) : V :=
  f (map num_of (select (eq_mask labs lvl) s)).


(** How many entries [d] of [l] pass the test [(d - obs) >= 0] of the
    p-value. *)
Definition count_nonneg {V : Type} `{Scalar V} (obs : V) (l : list V) : nat :=
  length (filter (fun d => sge0 (ssub d obs)) l).

Definition numeric (s : Series) : Prop := exists l, s = map Num l.



(** ** [src/resampled.py]: class [Resample] *)

Record Resample : Type := mkResample { method : string }.

Definition msg_method : string :=
  "Please set resampling method as 'bootstrap' or 'permutation' ".

Definition msg_ci : string :=
  "confidence interval can be estimated only for bootstrap method".

(** [Resample.__init__] *)
Definition Resample_init (resampling_method : string) : result Resample :=
  if (negb (resampling_method =? "bootstrap")
      && negb (resampling_method =? "permutation"))%bool
  then Err (SystemExit msg_method)
  else Ok (mkResample resampling_method).

(** The local variables of [run_hypothesis] when it returns. *)
Record hypothesis_locals (V : Type) : Type := mkLocals {
  obs_diff_statistic : V;
  resampled_ : DataFrame;
  resampled_diff : Stats V;
  pval : Q
}.

Arguments mkLocals {V} _ _ _ _.
Arguments obs_diff_statistic {V} _.
Arguments resampled_ {V} _.
Arguments resampled_diff {V} _.
Arguments pval {V} _.

Section Engine.

Context {G : Type} `{RandomState G}.

(** One pass of the resampling loops: draw a resample of the target
    column the size of the frame and append it as a new column. *)
Definition resample_step (df : DataFrame) (target : string) (replace : bool)
    (acc : DataFrame) : M G DataFrame :=
  do col <- lift (getitem (CStr target) df);
  do b <- sample col (shape0 df) replace;
  ret (concat_axis1_ignore_index acc (reset_index_drop b)).

(** The resamples the loop draws, in order, and the generator state it
    leaves: [k] draws of [length pop] positions each. *)
Fixpoint draw_samples (k : nat) (pop : Series) (replace : bool) (g : G)
    : list Series * G :=
  match k with
  | O => ([], g)
  | S k' =>
      let (locs, g1) := choice (length pop) (length pop) replace g in
      let (rest, g2) := draw_samples k' pop replace g1 in
      (take locs pop :: rest, g2)
  end.

(** The body of [Resample.run_hypothesis] up to its [return]. *)
Definition run_hypothesis_body {V : Type} `{Scalar V}
    (self : Resample) (df : DataFrame)
    (target levels : string) (lvl1 lvl2 : cell) (R : Z)
    (func : Series -> result V) : M G (hypothesis_locals V) :=
  (* reduce the dataframe to the features of interest *)
  do df <- lift (getitem_cols [CStr levels; CStr target] df);
  do l1 <- lift (getitem (CStr levels) df);
  do l2 <- lift (getitem (CStr levels) df);
  let df := getitem_mask (mask_or (eq_mask l1 lvl1) (eq_mask l2 lvl2)) df in
  do df <- lift (reset_index df);
  do lx <- lift (getitem (CStr levels) df);
  do x <- lift (getitem (CStr target) (getitem_mask (eq_mask lx lvl1) df));
  do ly <- lift (getitem (CStr levels) df);
  do y <- lift (getitem (CStr target) (getitem_mask (eq_mask ly lvl2) df));
  (* observed difference of statistic *)
  do fx <- lift (func x);
  do fy <- lift (func y);
  let obs_diff_statistic := ssub fx fy in
  do resampled_ <- lift (getitem_cols [CStr levels] df);
  (* resampling block *)
  do resampled_ <-
    (if method self =? "bootstrap"
     then for_range (Z.to_nat R) (resample_step df target true) resampled_
     else if method self =? "permutation"
     then for_range (Z.to_nat R) (resample_step df target false) resampled_
     else raise (SystemExit msg_method));
  (* calculate resampled statistic *)
  do c1 <- lift (getitem (CInt 0) resampled_);
  let resampled1 := getitem_mask (eq_mask c1 lvl1) resampled_ in
  do c2 <- lift (getitem (CInt 0) resampled_);
  let resampled2 := getitem_mask (eq_mask c2 lvl2) resampled_ in
  do s1 <- lift (loc_slice 1 R resampled1);
  do f_resampled1 <- lift (apply_axis0 func s1);
  do s2 <- lift (loc_slice 1 R resampled2);
  do f_resampled2 <- lift (apply_axis0 func s2);
  let resampled_diff := series_sub f_resampled1 f_resampled2 in
  (* calculate p-value *)
  let pval :=
    inject_Z (np_sum_bool
                (map (fun d => sge0 (ssub d obs_diff_statistic))
                     (values resampled_diff)))
    / inject_Z R in
  let resampled_ := rename_column (CInt 0) (CStr levels) resampled_ in
  ret (mkLocals obs_diff_statistic resampled_ resampled_diff pval).

(** [Resample.run_hypothesis]: returns [(resampled_, resampled_diff, pval)]. *)
Definition run_hypothesis {V : Type} `{Scalar V}
    (self : Resample) (df : DataFrame)
    (target levels : string) (lvl1 lvl2 : cell) (R : Z)
    (func : Series -> result V) : M G (DataFrame * Stats V * Q) :=
  do st <- run_hypothesis_body self df target levels lvl1 lvl2 R func;
  ret (resampled_ st, resampled_diff st, pval st).

(** [Resample.estimate_ci]: returns [(bootstrapped_stat, ci)] with
    [ci = (upper, lower)]. *)
Definition estimate_ci (self : Resample) (df : DataFrame)
    (target levels : string) (lvl : cell) (R : Z)
    (func : Series -> result Q) (alpha_level : Q)
    : M G (StatSeries * (Q * Q)) :=
  do df_ <-
    (if method self =? "bootstrap"
     then
       (* reduce the dataframe to the features of interest at the level of interest *)
       do df <- lift (getitem_cols [CStr levels; CStr target] df);
       do l <- lift (getitem (CStr levels) df);
       let df := getitem_mask (eq_mask l lvl) df in
       do df <- lift (reset_index df);
       (* new dataframe to hold bootstrapped samples *)
       do df_ <- lift (drop_column (CStr target) df);
       (* bootstrapping block *)
       for_range (Z.to_nat R) (resample_step df target true) df_
     else raise (SystemExit msg_ci));
  (* Series holding the per column bootstrapped statistic *)
  do s <- lift (loc_slice 1 R df_);
  do bootstrapped_stat <- lift (apply_axis0 func s);
  (* tuple holding the confidence interval *)
  do upper <- lift (np_percentile (values bootstrapped_stat)
                      (100 - (1 # 2) * 100 * alpha_level));
  do lower <- lift (np_percentile (values bootstrapped_stat)
                      ((1 # 2) * 100 * alpha_level));
  ret (bootstrapped_stat, (upper, lower)).

(** The value of every local variable of [run_hypothesis] at its
    [return], for a valid call with [R >= 1], in the arithmetic of the
    statistic's values. *)
Definition locals_at_return {V : Type} `{Scalar V}
    (replace : bool) (df : DataFrame) (levels : string)
    (labs : Series) (qs : list Q) (lvl1 lvl2 : cell) (R : Z)
    (f : list Q -> V) (g : G) : hypothesis_locals V * G :=
  let m := restricted_mask labs lvl1 lvl2 in
  let labs' := select m labs in
  let pop := map Num (select m qs) in
  let (ss, g') := draw_samples (Z.to_nat R) pop replace g in
  let obs := ssub (group_stat f labs' lvl1 pop) (group_stat f labs' lvl2 pop) in
  let diff :=
    combine (sample_labels R)
            (map (fun s => ssub (group_stat f labs' lvl1 s)
                                (group_stat f labs' lvl2 s)) ss) in
  (mkLocals obs
     (mkDataFrame (zrange 0 (length (select m (index df))))
                  ((CStr levels, labs') :: combine (sample_labels R) ss))
     diff
     (inject_Z (Z.of_nat (count_nonneg obs (values diff))) / inject_Z R),
   g').


(** The result of a bootstrap [estimate_ci] call with [R >= 1]: the
    window of columns 1..R over which the statistic is taken starts at
    the column of group labels, whose statistic is [v0], and stops one
    short of the last resample. *)
Definition expected_ci (labs : Series) (qs : list Q) (lvl : cell) (R : Z)
    (f : list Q -> Q) (v0 : Q) (alpha_level : Q) (g : G)
    : result ((StatSeries * (Q * Q)) * G) :=
  let pop := map Num (select (eq_mask labs lvl) qs) in
  let (ss, g') := draw_samples (Z.to_nat R) pop true g in
  let stat :=
    combine (sample_labels R)
            (v0 :: map (fun s => f (map num_of s)) (removelast ss)) in
  match np_percentile (values stat) (100 - (1 # 2) * 100 * alpha_level) with
  | Err e => Err e
  | Ok upper =>
      match np_percentile (values stat) ((1 # 2) * 100 * alpha_level) with
      | Err e => Err e
      | Ok lower => Ok ((stat, (upper, lower)), g')
      end
  end.

End Engine.

(** ** [src/bootstrap.py] and [src/permutation.py]: the legacy classes *)

(** [Bootstrap] instances: the column names and the two levels are fixed
    by the constructor. *)
Record Bootstrap : Type := mkBootstrap {
  b_levels : string;
  b_target : string;
  b_lvl1 : cell;
  b_lvl2 : cell
}.

(** [Bootstrap.__init__(target_feature, levels_feature, level1, level2)] *)
Definition Bootstrap_init (target_feature levels_feature : string)
    (level1 level2 : cell) : Bootstrap :=
  mkBootstrap levels_feature target_feature level1 level2.

(** [permutation] instances. *)
Record permutation : Type := mkPermutation {
  p_levels : string;
  p_target : string;
  p_lvl1 : cell;
  p_lvl2 : cell
}.

(** [permutation.__init__(target_feature, condition_feature, condition1,
    condition2)] *)
Definition permutation_init (target_feature condition_feature : string)
    (condition1 condition2 : cell) : permutation :=
  mkPermutation condition_feature target_feature condition1 condition2.

(** What [print] wrote: each line is a text and a number, a value of the
    statistic's arithmetic or the quotient that is the p-value. *)
Definition stdout (V : Type) : Type := list (string * (V + Q)).

Section LegacyEngine.

Context {G : Type} `{RandomState G}.

(** [Bootstrap.calculate_pvalue]: returns [boot_m_diff] and prints the
    observed difference and the p-value.  The lines after the second
    [print] only draw the histogram and are left out. *)
Definition Bootstrap_calculate_pvalue {V : Type} `{Scalar V}
    (self : Bootstrap) (df : DataFrame)
    (B : Z) (func : Series -> result V) : M G (Stats V * stdout V) :=
  (* reduce the dataframe to the features of interest *)
  do df <- lift (getitem_cols [CStr (b_levels self); CStr (b_target self)] df);
  do l1 <- lift (getitem (CStr (b_levels self)) df);
  do l2 <- lift (getitem (CStr (b_levels self)) df);
  let df := getitem_mask (mask_or (eq_mask l1 (b_lvl1 self))
                                  (eq_mask l2 (b_lvl2 self))) df in
  do df <- lift (reset_index df);
  do lx <- lift (getitem (CStr (b_levels self)) df);
  do x <- lift (getitem (CStr (b_target self))
                  (getitem_mask (eq_mask lx (b_lvl1 self)) df));
  do ly <- lift (getitem (CStr (b_levels self)) df);
  do y <- lift (getitem (CStr (b_target self))
                  (getitem_mask (eq_mask ly (b_lvl2 self)) df));
  do fx <- lift (func x);
  do fy <- lift (func y);
  let obs_diff_statistic := ssub fx fy in
  let out := [("observed difference of statistic: ", inl obs_diff_statistic)] in
  do df_ <- lift (getitem_cols [CStr (b_levels self)] df);
  do df_ <- for_range (Z.to_nat B) (resample_step df (b_target self) true) df_;
  do c1 <- lift (getitem (CInt 0) df_);
  let bootstrapped1 := getitem_mask (eq_mask c1 (b_lvl1 self)) df_ in
  do c2 <- lift (getitem (CInt 0) df_);
  let bootstrapped2 := getitem_mask (eq_mask c2 (b_lvl2 self)) df_ in
  do s1 <- lift (loc_slice 1 B bootstrapped1);
  do m_bootstrapped1 <- lift (apply_axis0 func s1);
  do s2 <- lift (loc_slice 1 B bootstrapped2);
  do m_bootstrapped2 <- lift (apply_axis0 func s2);
  let boot_m_diff := series_sub m_bootstrapped1 m_bootstrapped2 in
  let pval :=
    inject_Z (np_sum_bool
                (map (fun d => sge0 (ssub d obs_diff_statistic))
                     (values boot_m_diff)))
    / inject_Z B in
  let out := (out ++ [("p-value", inr pval)])%list in
  ret (boot_m_diff, out).

(** [permutation.calculate_pvalue]: as above, drawing without
    replacement. *)
Definition permutation_calculate_pvalue {V : Type} `{Scalar V}
    (self : permutation) (df : DataFrame)
    (P : Z) (func : Series -> result V) : M G (Stats V * stdout V) :=
  (* reduce the dataframe to the features of interest *)
  do df <- lift (getitem_cols [CStr (p_levels self); CStr (p_target self)] df);
  do l1 <- lift (getitem (CStr (p_levels self)) df);
  do l2 <- lift (getitem (CStr (p_levels self)) df);
  let df := getitem_mask (mask_or (eq_mask l1 (p_lvl1 self))
                                  (eq_mask l2 (p_lvl2 self))) df in
  do df <- lift (reset_index df);
  do lx <- lift (getitem (CStr (p_levels self)) df);
  do x <- lift (getitem (CStr (p_target self))
                  (getitem_mask (eq_mask lx (p_lvl1 self)) df));
  do ly <- lift (getitem (CStr (p_levels self)) df);
  do y <- lift (getitem (CStr (p_target self))
                  (getitem_mask (eq_mask ly (p_lvl2 self)) df));
  do fx <- lift (func x);
  do fy <- lift (func y);
  let obs_diff_statistic := ssub fx fy in
  let out := [("observed difference of statistic: ", inl obs_diff_statistic)] in
  do df_ <- lift (getitem_cols [CStr (p_levels self)] df);
  do df_ <- for_range (Z.to_nat P) (resample_step df (p_target self) false) df_;
  do c1 <- lift (getitem (CInt 0) df_);
  let perm1 := getitem_mask (eq_mask c1 (p_lvl1 self)) df_ in
  do c2 <- lift (getitem (CInt 0) df_);
  let perm2 := getitem_mask (eq_mask c2 (p_lvl2 self)) df_ in
  do s1 <- lift (loc_slice 1 P perm1);
  do m_perm1 <- lift (apply_axis0 func s1);
  do s2 <- lift (loc_slice 1 P perm2);
  do m_perm2 <- lift (apply_axis0 func s2);
  let perm_m_diff := series_sub m_perm1 m_perm2 in
  let pval :=
    inject_Z (np_sum_bool
                (map (fun d => sge0 (ssub d obs_diff_statistic))
                     (values perm_m_diff)))
    / inject_Z P in
  let out := (out ++ [("p-value", inr pval)])%list in
  ret (perm_m_diff, out).

(** [Bootstrap.estimate_ci]: returns [(bootstrapped_m, ci)].  With
    [create_dummy_var] the method evaluates the comparison
    [df['dummy']==0] and drops its value: the column is looked up, never
    created. *)
Definition Bootstrap_estimate_ci (self : Bootstrap) (df : DataFrame)
    (level : cell) (B : Z) (func : Series -> result Q) (alpha_level : Q)
    (create_dummy_var : bool) : M G (StatSeries * (Q * Q)) :=
  do _ <-
    (if create_dummy_var
     then do d <- lift (getitem (CStr "dummy") df);
          ret (eq_mask d (Num 0))
     else ret []);
  (* reduce the dataframe to the features of interest at the level of interest *)
  do df <- lift (getitem_cols [CStr (b_levels self); CStr (b_target self)] df);
  do l <- lift (getitem (CStr (b_levels self)) df);
  let df := getitem_mask (eq_mask l level) df in
  do df <- lift (reset_index df);
  do df_ <- lift (drop_column (CStr (b_target self)) df);
  do df_ <- for_range (Z.to_nat B) (resample_step df (b_target self) true) df_;
  do s <- lift (loc_slice 1 B df_);
  do bootstrapped_m <- lift (apply_axis0 func s);
  do upper <- lift (np_percentile (values bootstrapped_m)
                      (100 - (1 # 2) * 100 * alpha_level));
  do lower <- lift (np_percentile (values bootstrapped_m)
                      ((1 # 2) * 100 * alpha_level));
  ret (bootstrapped_m, (upper, lower)).

(** What the legacy methods return and print, read off the local
    variables of [run_hypothesis]. *)
Definition legacy_view {V : Type} (st : hypothesis_locals V)
    : Stats V * stdout V :=
  (resampled_diff st,
   [("observed difference of statistic: ", inl (obs_diff_statistic st));
    ("p-value", inr (pval st))]).

End LegacyEngine.

(** ** Error kinds of the specification *)

(** The four error kinds the specification names. *)
Inductive error_kind : Type :=
| InvalidArgument
| EmptyGroup
| UnsupportedOperation
| ResamplingMethodUnknown.

(** The code signals its own two failures with [sys.exit(message)]:
    the message of [estimate_ci] is the unsupported-operation failure, the
    message of [__init__] and [run_hypothesis] the unknown-method failure.
    Whatever else is raised comes from pandas, numpy or the statistic
    function and belongs to no kind. *)
Definition error_kind_of (e : exn) : option error_kind :=
  match e with
  | SystemExit msg =>
      if msg =? msg_ci then Some UnsupportedOperation
      else if msg =? msg_method then Some ResamplingMethodUnknown
      else None
  | _ => None
  end.

Definition fails_with {A : Type} (k : error_kind) (r : result A) : Prop :=
  exists e, r = Err e /\ error_kind_of e = Some k.

(** ** Example data *)

Definition strs (l : list string) : Series := map Str l.

(** The data set of the class docstring: target [4,3,7,5], levels
    [A,A,B,B]. *)
Definition df_AB : DataFrame :=
  mkDataFrame [0; 1; 2; 3]%Z
    [(CStr "var1", map Num [4; 3; 7; 5]);
     (CStr "levels", strs ["A"; "A"; "B"; "B"])].

(** The docstring data with a row of a third level ["C"]. *)
Definition df_ABC : DataFrame :=
  mkDataFrame [0; 1; 2; 3; 4]%Z
    [(CStr "var1", map Num [4; 3; 7; 5; 9]);
     (CStr "levels", strs ["A"; "A"; "B"; "B"; "C"])].

Definition bootstrap_engine : Resample := mkResample "bootstrap".

Definition permutation_engine : Resample := mkResample "permutation".

(** A data set whose group labels are numbers: three rows of dose 1 with
    target 10 and one row of dose 2. *)
Definition df_dose : DataFrame :=
  mkDataFrame [0; 1; 2; 3]%Z
    [(CStr "var1", map Num [10; 10; 10; 7]);
     (CStr "dose", map Num [1; 1; 1; 2])].


(** Two rows, one of each label, whose target values are the binary64
    numbers [2^1023] and [-2^1023]. *)
Definition df_huge : DataFrame :=
  mkDataFrame [0; 1]%Z
    [(CStr "var1", map Num [inject_Z (2 ^ 1023); inject_Z (- 2 ^ 1023)]);
     (CStr "levels", strs ["A"; "B"])].

(** A statistic that refuses an empty series. *)
Definition mean_nonempty (s : Series) : result Q :=
  match s with
  | [] => Err (Raised "empty")
  | _ => np_mean s
  end.


(** ** A concrete generator

    A linear congruential generator over [Z].  With replacement every
    draw advances the state and reduces it modulo the population size;
    without replacement the population is rotated by one such draw. *)
Module Lcg.

Definition next (g : Z) : Z := ((g * 75 + 74) mod 65537)%Z.

Fixpoint draws (a size : nat) (g : Z) : list nat * Z :=
  match size with
  | O => ([], g)
  | S size' =>
      let g1 := next g in
      let (l, g2) := draws a size' g1 in
      (Z.to_nat (g1 mod Z.of_nat a) :: l, g2)
  end.

Definition rotation (a : nat) (k : nat) : list nat :=
  skipn k (seq 0 a) ++ firstn k (seq 0 a).

Definition choice (a size : nat) (replace : bool) (g : Z) : list nat * Z :=
  if replace then draws a size g
  else let g1 := next g in
       (firstn size (rotation a (Z.to_nat (g1 mod Z.of_nat a))), g1).

Lemma draws_length (a size : nat) (g : Z) :
  length (fst (draws a size g)) = size.
Proof.
  revert g; induction size as [|n IH]; intro g; simpl; [reflexivity|].
  specialize (IH (next g)).
  destruct (draws a n (next g)) as [l g2]; simpl in *; congruence.
Qed.

Lemma draws_range (a size : nat) (g : Z) :
  (0 < a)%nat -> Forall (fun i => (i < a)%nat) (fst (draws a size g)).
Proof.
  intro Ha; revert g; induction size as [|n IH]; intro g; simpl; [constructor|].
  specialize (IH (next g)).
  destruct (draws a n (next g)) as [l g2]; simpl in *.
  constructor; [|exact IH].
  pose proof (Z.mod_pos_bound (next g) (Z.of_nat a)) as Hb.
  lia.
Qed.

Lemma rotation_perm (a k : nat) : Permutation (rotation a k) (seq 0 a).
Proof.
  unfold rotation.
  rewrite <- (firstn_skipn k (seq 0 a)) at 3.
  apply Permutation_app_comm.
Qed.

Lemma In_firstn_of {A : Type} (n : nat) (l : list A) (x : A) :
  In x (firstn n l) -> In x l.
Proof.
  intro Hin. rewrite <- (firstn_skipn n l).
  apply in_or_app; left; exact Hin.
Qed.

Lemma NoDup_firstn_of {A : Type} (n : nat) (l : list A) :
  NoDup l -> NoDup (firstn n l).
Proof.
  intro Hl; revert n; induction Hl as [|x l Hx Hl IH]; intro n.
  - rewrite firstn_nil; constructor.
  - destruct n as [|n]; simpl; constructor.
    + intro Hin; apply Hx. apply (In_firstn_of _ _ _ Hin).
    + apply IH.
Qed.

#[global] Instance lcg_random_state : RandomState Z.
Proof.
  refine (Build_RandomState Z choice _ _ _).
  - intros a size replace g Hc. unfold choice.
    destruct replace.
    + apply draws_length.
    + simpl. destruct Hc as [Hc|Hc]; [discriminate|].
      rewrite length_firstn.
      rewrite (Permutation_length (rotation_perm a _)), length_seq. lia.
  - intros a size replace g Ha. unfold choice.
    destruct replace.
    + apply draws_range; exact Ha.
    + simpl. apply Forall_forall; intros i Hi.
      apply In_firstn_of in Hi.
      apply (Permutation_in _ (rotation_perm a _)) in Hi.
      apply in_seq in Hi. lia.
  - intros a size g Hs. unfold choice; simpl.
    apply NoDup_firstn_of.
    apply (Permutation_NoDup (Permutation_sym (rotation_perm a _))).
    apply seq_NoDup.
Defined.

End Lcg.

(** ** Lists, masks and frames *)

Lemma select_map {A B : Type} (f : A -> B) (m : list bool) (l : list A) :
  select m (map f l) = map f (select m l).
Proof.
  revert l; induction m as [|b m IH]; intros [|a l]; simpl; try reflexivity.
  destruct b; simpl; rewrite IH; reflexivity.
Qed.

Lemma select_length {A B : Type} (m : list bool) (l1 : list A) (l2 : list B) :
  length l1 = length l2 -> length (select m l1) = length (select m l2).
Proof.
  revert l1 l2; induction m as [|b m IH]; intros [|a l1] [|c l2] Hl;
    simpl in *; try reflexivity; try discriminate.
  injection Hl as Hl. destruct b; simpl; rewrite (IH l1 l2 Hl); reflexivity.
Qed.

Lemma zrange_length (s : Z) (n : nat) : length (zrange s n) = n.
Proof.
  revert s; induction n as [|n IH]; intro s; simpl; [reflexivity|].
  rewrite IH; reflexivity.
Qed.

Lemma map_snd_combine_eq {A B : Type} (l1 : list A) (l2 : list B) :
  length l1 = length l2 -> map snd (combine l1 l2) = l2.
Proof.
  revert l2; induction l1 as [|a l1 IH]; intros [|b l2] Hl;
    simpl in *; try reflexivity; try discriminate.
  injection Hl as Hl. rewrite (IH l2 Hl); reflexivity.
Qed.

Lemma values_combine {V : Type} (ls : list colname) (vs : list V) :
  length ls = length vs -> values (combine ls vs) = vs.
Proof.
  unfold values. apply map_snd_combine_eq.
Qed.

Lemma map_snd_relabel (cols : list Series) : map snd (relabel cols) = cols.
Proof.
  unfold relabel. apply map_snd_combine_eq.
  rewrite length_map, zrange_length; reflexivity.
Qed.

Section EngineFacts.

Context {G : Type} `{RandomState G}.

Lemma draw_samples_length (k : nat) (pop : Series) (replace : bool) (g : G) :
  length (fst (draw_samples k pop replace g)) = k.
Proof.
  revert g; induction k as [|k IH]; intro g; simpl; [reflexivity|].
  destruct (choice (length pop) (length pop) replace g) as [locs g1].
  specialize (IH g1).
  destruct (draw_samples k pop replace g1) as [rest g2]; simpl in *.
  rewrite IH; reflexivity.
Qed.

Lemma sample_eq (pop : Series) (replace : bool) (g : G) :
  sample pop (length pop) replace g =
  let (locs, g1) := choice (length pop) (length pop) replace g in
  Ok (take locs pop, g1).
Proof.
  unfold sample.
  replace ((length pop =? 0)%nat && negb (length pop =? 0)%nat)%bool with false
    by (destruct (length pop =? 0)%nat; reflexivity).
  rewrite Nat.ltb_irrefl, andb_false_r. reflexivity.
Qed.

(** The resampling loop appends the drawn resamples as columns and
    renumbers all columns from 0. *)
Lemma for_range_resample (df : DataFrame) (target : string) (replace : bool)
    (pop : Series) (k : nat) (acc : DataFrame) (g : G) :
  getitem (CStr target) df = Ok pop ->
  shape0 df = length pop ->
  for_range k (resample_step df target replace) acc g =
  let (ss, g') := draw_samples k pop replace g in
  Ok (match ss with
      | [] => acc
      | _ => mkDataFrame (index acc) (relabel (map snd (columns acc) ++ ss))
      end, g').
Proof.
  intros Hpop Hn. revert acc g; induction k as [|k IH]; intros acc g.
  - reflexivity.
  - simpl. unfold bind at 1. unfold resample_step at 1.
    unfold bind at 1. rewrite Hpop. unfold lift at 1.
    unfold bind at 1. rewrite Hn, sample_eq.
    destruct (choice (length pop) (length pop) replace g) as [locs g1].
    unfold ret at 1. rewrite IH.
    destruct (draw_samples k pop replace g1) as [rest g2].
    unfold reset_index_drop, concat_axis1_ignore_index; simpl.
    destruct rest as [|r rest]; [reflexivity|].
    rewrite map_snd_relabel, <- app_assoc. reflexivity.
Qed.

End EngineFacts.

Lemma lookup_col_In (c : colname) (cols : list (colname * Series)) (s : Series) :
  lookup_col c cols = Ok s -> exists c', In (c', s) cols.
Proof.
  induction cols as [|[c' s'] cols IH]; simpl; [discriminate|].
  destruct (colname_eqb c c').
  - intro E; injection E as ->. exists c'; left; reflexivity.
  - intro E; destruct (IH E) as [c'' Hin]. exists c''; right; exact Hin.
Qed.

Lemma wf_getitem_length (df : DataFrame) (c : colname) (s : Series) :
  wf_frame df -> getitem c df = Ok s -> length s = length (index df).
Proof.
  intros Hwf Hget. destruct (lookup_col_In _ _ _ Hget) as [c' Hin].
  unfold wf_frame in Hwf. rewrite Forall_forall in Hwf.
  exact (Hwf _ Hin).
Qed.

Lemma map_num_of_Num (l : list Q) : map num_of (map Num l) = l.
Proof.
  rewrite map_map; simpl. apply map_id.
Qed.

Lemma take_map_Num (locs : list nat) (l : list Q) :
  take locs (map Num l) = map Num (map (fun i => nth i l 0) locs).
Proof.
  unfold take. rewrite map_map. apply map_ext; intro i.
  apply (map_nth Num l 0 i).
Qed.

Lemma zrange_In (s : Z) (n : nat) (z : Z) :
  In z (zrange s n) -> (s <= z < s + Z.of_nat n)%Z.
Proof.
  revert s; induction n as [|n IH]; intro s; simpl; [tauto|].
  intros [E|Hin]; [lia|]. specialize (IH _ Hin). lia.
Qed.

Lemma filter_all {A : Type} (p : A -> bool) (l : list A) :
  Forall (fun a => p a = true) l -> filter p l = l.
Proof.
  induction 1 as [|a l Ha Hl IH]; simpl; [reflexivity|].
  rewrite Ha, IH; reflexivity.
Qed.


Lemma np_sum_bool_nonneg {V : Type} `{Scalar V} (obs : V) (l : list V) :
  np_sum_bool (map (fun d => sge0 (ssub d obs)) l)
  = Z.of_nat (count_nonneg obs l).
Proof.
  unfold np_sum_bool, count_nonneg. f_equal.
  induction l as [|d l IH]; simpl; [reflexivity|].
  destruct (sge0 (ssub d obs)); simpl; rewrite IH; reflexivity.
Qed.


(** The columns of a frame that holds the labels in column 0 and the
    resamples in columns 1..k. *)
Lemma relabel_cons (c : Series) (ss : list Series) :
  relabel (c :: ss) = (CInt 0, c) :: combine (map CInt (zrange 1 (length ss))) ss.
Proof. reflexivity. Qed.

Lemma int_labels_combine (zs : list Z) (ss : list Series) (h : Series -> Series) :
  forallb (fun c : colname * Series => is_int_label (fst c))
          (map (fun c => (fst c, h (snd c))) (combine (map CInt zs) ss)) = true.
Proof.
  revert ss; induction zs as [|z zs IH]; intros [|s ss]; simpl; auto.
Qed.

Lemma slice_keeps_samples (R : Z) (k : nat) (ss : list Series) (h : Series -> Series) :
  (Z.of_nat k <= R)%Z ->
  filter (fun c : colname * Series => in_slice 1 R (fst c))
         (map (fun c => (fst c, h (snd c))) (combine (map CInt (zrange 1 k)) ss))
  = combine (map CInt (zrange 1 k)) (map h ss).
Proof.
  intro Hk. rewrite filter_all.
  - generalize (zrange 1 k) as zs. intro zs; revert ss.
    induction zs as [|z zs IH]; intros [|s ss]; simpl; try reflexivity.
    rewrite IH; reflexivity.
  - apply Forall_forall. intros [c s] Hin.
    apply in_map_iff in Hin. destruct Hin as [[c' s'] [E Hin]].
    simpl in E. injection E as <- <-.
    apply in_combine_l in Hin. apply in_map_iff in Hin.
    destruct Hin as [z [<- Hz]]. apply zrange_In in Hz. simpl.
    apply andb_true_iff; split; apply Z.leb_le; lia.
Qed.

Lemma apply_axis0_columns {V : Type} (func : Series -> result V)
    (f : list Q -> V)
    (idx : list Z) (ls : list colname) (ss : list Series) :
  stat_total func f ->
  Forall numeric ss ->
  apply_axis0 func (mkDataFrame idx (combine ls ss))
  = Ok (combine ls (map (fun s => f (map num_of s)) ss)).
Proof.
  intros Hf Hss. unfold apply_axis0; simpl. revert ls.
  induction Hss as [|s ss [l ->] Hss IH]; intros [|c ls]; simpl; try reflexivity.
  rewrite Hf, IH, map_num_of_Num. reflexivity.
Qed.

Lemma getitem_cols_one (c : colname) (df : DataFrame) (s : Series) :
  getitem c df = Ok s ->
  getitem_cols [c] df = Ok (mkDataFrame (index df) [(c, s)]).
Proof.
  unfold getitem, getitem_cols; simpl. intros ->. reflexivity.
Qed.

Lemma getitem_cols_two (c1 c2 : colname) (df : DataFrame) (s1 s2 : Series) :
  getitem c1 df = Ok s1 ->
  getitem c2 df = Ok s2 ->
  getitem_cols [c1; c2] df = Ok (mkDataFrame (index df) [(c1, s1); (c2, s2)]).
Proof.
  unfold getitem, getitem_cols; simpl. intros -> ->. reflexivity.
Qed.

Lemma numeric_select (mk : list bool) (s : Series) :
  numeric s -> numeric (select mk s).
Proof.
  intros [l ->]. exists (select mk l). apply select_map.
Qed.

(** Column slice [1:R] of the rows picked by [mk], in a table that holds
    the labels in column 0 and [k <= R] resamples in columns 1..k. *)
Lemma loc_slice_samples (R : Z) (k : nat) (idx : list Z) (c0 : Series)
    (ss : list Series) (mk : list bool) :
  (Z.of_nat k <= R)%Z ->
  loc_slice 1 R
    (getitem_mask mk
       (mkDataFrame idx ((CInt 0, c0) :: combine (map CInt (zrange 1 k)) ss)))
  = Ok (mkDataFrame (select mk idx)
          (combine (map CInt (zrange 1 k)) (map (select mk) ss))).
Proof.
  intro Hk. unfold loc_slice, getitem_mask.
  cbn [columns index map fst snd forallb is_int_label andb filter in_slice].
  rewrite int_labels_combine.
  replace ((1 <=? 0)%Z && (0 <=? R)%Z)%bool with false by reflexivity.
  rewrite slice_keeps_samples by exact Hk. reflexivity.
Qed.

Lemma series_sub_maps {A V : Type} `{Scalar V} (ls : list colname)
    (a b : A -> V) (ss : list A) :
  series_sub (combine ls (map a ss)) (combine ls (map b ss))
  = combine ls (map (fun s => ssub (a s) (b s)) ss).
Proof.
  revert ss; induction ls as [|c ls IH]; intros [|s ss]; simpl; try reflexivity.
  rewrite IH; reflexivity.
Qed.

Lemma rename_samples (new : colname) (k : nat) (ss : list Series) :
  map (fun c : colname * Series =>
         if colname_eqb (fst c) (CInt 0) then (new, snd c) else c)
      (combine (map CInt (zrange 1 k)) ss)
  = combine (map CInt (zrange 1 k)) ss.
Proof.
  rewrite <- (map_id (combine (map CInt (zrange 1 k)) ss)) at 2.
  apply map_ext_in. intros [c s] Hin.
  apply in_combine_l in Hin. apply in_map_iff in Hin.
  destruct Hin as [z [<- Hz]]. apply zrange_In in Hz. simpl.
  destruct (Z.eqb_spec z 0); [lia | reflexivity].
Qed.

Lemma group_stat_Num {V : Type} (f : list Q -> V) (labs : Series) (lvl : cell)
    (l : list Q) :
  group_stat f labs lvl (map Num l) = f (select (eq_mask labs lvl) l).
Proof.
  unfold group_stat. rewrite select_map, map_num_of_Num. reflexivity.
Qed.

Section RunHypothesis.

Context {G : Type} `{RandomState G}.

Lemma draw_samples_numeric (k : nat) (l : list Q) (replace : bool) (g : G) :
  Forall numeric (fst (draw_samples k (map Num l) replace g)).
Proof.
  revert g; induction k as [|k IH]; intro g; simpl; [constructor|].
  destruct (choice _ _ replace g) as [locs g1].
  specialize (IH g1).
  destruct (draw_samples k (map Num l) replace g1) as [rest g2]; simpl in *.
  constructor; [|exact IH].
  eexists. apply take_map_Num.
Qed.

(** What [run_hypothesis] computes on a valid call with [R >= 1], in
    whatever arithmetic the statistic's values have. *)
Lemma run_hypothesis_body_locals {V : Type} `{Scalar V}
    (self : Resample) (replace : bool)
    (df : DataFrame) (target levels : string) (labs : Series) (qs : list Q)
    (lvl1 lvl2 : cell) (R : Z) (func : Series -> result V) (f : list Q -> V)
    (g : G) :
  method self = (if replace then "bootstrap" else "permutation") ->
  valid_call df target levels labs qs ->
  stat_total func f ->
  (1 <= R)%Z ->
  run_hypothesis_body self df target levels lvl1 lvl2 R func g
  = Ok (locals_at_return replace df levels labs qs lvl1 lvl2 R f g).
Proof.
  intros Hm [Hwf Hlev Htgt Hd Hli Hti] Hf HR.
  assert (E1 : (levels =? levels) = true) by apply String.eqb_refl.
  assert (E2 : (target =? target) = true) by apply String.eqb_refl.
  assert (E3 : (target =? levels) = false) by (apply String.eqb_neq; congruence).
  assert (E4 : (levels =? "index") = false) by (apply String.eqb_neq; congruence).
  assert (E5 : (target =? "index") = false) by (apply String.eqb_neq; congruence).
  assert (E6 : ("index" =? levels) = false) by (apply String.eqb_neq; congruence).
  assert (E7 : ("index" =? target) = false) by (apply String.eqb_neq; congruence).
  pose proof (wf_getitem_length _ _ _ Hwf Hlev) as Llab.
  pose proof (wf_getitem_length _ _ _ Hwf Htgt) as Ltgt.
  unfold run_hypothesis_body, locals_at_return, restricted_mask.
  set (m := mask_or (eq_mask labs lvl1) (eq_mask labs lvl2)).
  set (labs' := select m labs).
  set (pop := map Num (select m qs)).
  unfold bind at 1. rewrite (getitem_cols_two _ _ _ _ _ Hlev Htgt). cbn [lift].
  unfold bind at 1. cbn [getitem columns lookup_col colname_eqb]. rewrite E1. cbn [lift].
  unfold bind at 1. cbn [lift]. fold m.
  unfold bind at 1. unfold reset_index, has_col.
  cbn [getitem_mask columns index map fst snd existsb colname_eqb].
  rewrite E6, E7. cbn [orb lift]. fold labs'.
  match goal with |- context [getitem (CStr levels) ?d] => set (df3 := d) end.
  assert (D1 : getitem (CStr levels) df3 = Ok labs').
  { unfold df3, getitem; cbn [columns lookup_col colname_eqb]. rewrite E4, E1. reflexivity. }
  assert (D2 : forall mk, getitem (CStr target) (getitem_mask mk df3) = Ok (select mk pop)).
  { intro mk. unfold df3, getitem, getitem_mask.
    cbn [columns lookup_col colname_eqb map fst snd]. rewrite E5, E3, E2.
    unfold pop. rewrite <- select_map. reflexivity. }
  assert (D3 : getitem (CStr target) df3 = Ok pop).
  { unfold df3, getitem; cbn [columns lookup_col colname_eqb]. rewrite E5, E3, E2.
    unfold pop. rewrite <- select_map. reflexivity. }
  assert (D4 : shape0 df3 = length pop).
  { unfold df3, shape0; cbn [index]. rewrite zrange_length.
    unfold pop. rewrite <- select_map. cbn [index]. apply select_length. symmetry; exact Ltgt. }
  assert (D6 : index df3 = zrange 0 (length (select m (index df)))) by reflexivity.
  unfold bind at 1. rewrite ?D1. cbn [lift].
  unfold bind at 1. rewrite D2. cbn [lift].
  unfold bind at 1. cbn [lift].
  unfold bind at 1. rewrite D2. cbn [lift].
  unfold pop at 1 2. rewrite !select_map, !Hf.
  unfold bind at 1. cbn [lift]. unfold bind at 1. cbn [lift].
  unfold bind at 1. rewrite (getitem_cols_one _ _ _ D1). cbn [lift].
  assert (Hloop : forall acc,
    (if method self =? "bootstrap"
     then for_range (Z.to_nat R) (resample_step df3 target true) acc
     else if method self =? "permutation"
          then for_range (Z.to_nat R) (resample_step df3 target false) acc
          else raise (SystemExit msg_method))
    = for_range (Z.to_nat R) (resample_step df3 target replace) acc).
  { intro acc. rewrite Hm. destruct replace; reflexivity. }
  rewrite Hloop.
  unfold bind at 1. rewrite (for_range_resample df3 target replace pop _ _ _ D3 D4).
  pose proof (draw_samples_length (Z.to_nat R) pop replace g) as Lss.
  pose proof (draw_samples_numeric (Z.to_nat R) (select m qs) replace g) as Nss.
  fold pop in Nss.
  destruct (draw_samples (Z.to_nat R) pop replace g) as [ss g'].
  cbn [fst] in Lss, Nss.
  destruct ss as [|s0 ss0]; [simpl in Lss; lia|].
  set (ss := s0 :: ss0) in *.
  assert (N1 : forall mk, Forall numeric (map (select mk) ss)).
  { intro mk. apply Forall_map.
    eapply Forall_impl; [|exact Nss]. intros a Ha; apply numeric_select; exact Ha. }
  cbn [columns index map snd app]. rewrite relabel_cons, Lss, D6. fold (sample_labels R).
  unfold bind at 1. cbn [lift getitem columns lookup_col colname_eqb Z.eqb].
  unfold bind at 1. cbn [lift].
  unfold sample_labels.
  unfold bind at 1. rewrite loc_slice_samples by lia. cbn [lift].
  unfold bind at 1.
  rewrite (apply_axis0_columns func f _ _ _ Hf (N1 _)).
  cbn [lift].
  unfold bind at 1. rewrite loc_slice_samples by lia. cbn [lift].
  unfold bind at 1.
  rewrite (apply_axis0_columns func f _ _ _ Hf (N1 _)).
  cbn [lift]. unfold ret.
  rewrite !map_map, series_sub_maps, np_sum_bool_nonneg.
  unfold rename_column. cbn [columns index map fst snd colname_eqb Z.eqb].
  rewrite rename_samples.
  unfold pop. rewrite !group_stat_Num.
  reflexivity.
Qed.



End RunHypothesis.

Lemma numeric_stat_total {V : Type} (f : list Q -> V) :
  stat_total (numeric_stat f) f.
Proof.
  intro l. unfold numeric_stat.
  replace (forallb is_num (map Num l)) with true.
  - rewrite map_num_of_Num; reflexivity.
  - symmetry. apply forallb_forall. intros c Hc.
    apply in_map_iff in Hc. destruct Hc as [q [<- _]]. reflexivity.
Qed.

Lemma select_nil_r {A : Type} (m : list bool) : select m (@nil A) = [].
Proof. destruct m; reflexivity. Qed.

(** Restricting to the rows of either label and then picking the rows of
    one of them picks the same cells as picking them directly. *)
Lemma select_restricted {A : Type} (labs : Series) (a b : cell) (l : list A) :
  select (eq_mask (select (restricted_mask labs a b) labs) a)
         (select (restricted_mask labs a b) l)
  = select (eq_mask labs a) l
  /\
  select (eq_mask (select (restricted_mask labs a b) labs) b)
         (select (restricted_mask labs a b) l)
  = select (eq_mask labs b) l.
Proof.
  unfold restricted_mask. revert l.
  induction labs as [|c labs IH]; intros [|x l];
    try (rewrite !select_nil_r; split; reflexivity);
    simpl; try (split; reflexivity).
  destruct (IH l) as [IHa IHb].
    destruct (cell_eqb c a) eqn:Ea, (cell_eqb c b) eqn:Eb; simpl;
      rewrite ?Ea, ?Eb, ?IHa, ?IHb; split; reflexivity.
Qed.

Section RunHypothesisClaims.

Context {G : Type} `{RandomState G}.


(** C1 (amended).  For a valid call with [R >= 1] and a total statistic,
    [run_hypothesis] returns, and its p-value is the number of entries
    [d] of the returned difference distribution that pass the test
    [(d - obs_diff) >= 0], divided by [R]: the subtraction and the test
    are those of the arithmetic the statistic's values have, whatever it
    is.  [obs_diff] is the statistic of the target values in the rows
    labelled [lvl1] minus that of the rows labelled [lvl2], and the
    entries of the distribution are, resample by resample, the statistic
    of the resampled cells at the rows labelled [lvl1] minus that at the
    rows labelled [lvl2]. *)
Theorem run_hypothesis_pvalue {V : Type} `{Scalar V}
    (self : Resample) (df : DataFrame)
    (target levels : string) (labs : Series) (qs : list Q)
    (lvl1 lvl2 : cell) (R : Z) (func : Series -> result V) (f : list Q -> V)
    (g : G) :
  method self = "bootstrap" \/ method self = "permutation" ->
  valid_call df target levels labs qs ->
  stat_total func f ->
  (1 <= R)%Z ->
  exists tbl diff p g' ss,
    run_hypothesis self df target levels lvl1 lvl2 R func g
    = Ok ((tbl, diff, p), g')
    /\ p = inject_Z (Z.of_nat
             (count_nonneg (ssub (f (select (eq_mask labs lvl1) qs))
                                 (f (select (eq_mask labs lvl2) qs)))
                           (values diff)))
           / inject_Z R
    /\ columns tbl
       = (CStr levels, select (restricted_mask labs lvl1 lvl2) labs)
           :: combine (sample_labels R) ss
    /\ values diff
       = map (fun s =>
                ssub (group_stat f (select (restricted_mask labs lvl1 lvl2) labs)
                                 lvl1 s)
                     (group_stat f (select (restricted_mask labs lvl1 lvl2) labs)
                                 lvl2 s))
             ss.
Proof.
  intros Hm Hv Hf HR.
  assert (Hm' : exists replace : bool,
             method self = if replace then "bootstrap" else "permutation").
  { destruct Hm as [Hm|Hm]; [exists true | exists false]; exact Hm. }
  destruct Hm' as [replace Hm'].
  unfold run_hypothesis, bind.
  rewrite (run_hypothesis_body_locals self replace df target levels labs qs
             lvl1 lvl2 R func f g Hm' Hv Hf HR).
  unfold locals_at_return.
  pose proof (draw_samples_length (Z.to_nat R)
                (map Num (select (restricted_mask labs lvl1 lvl2) qs)) replace g)
    as Lss.
  match goal with
  | |- context [draw_samples ?k ?p ?r ?s] =>
      destruct (draw_samples k p r s) as [ss g']
  end.
  cbn [ret resampled_ resampled_diff pval columns fst] in *.
  do 4 eexists. exists ss. split; [reflexivity|].
  split; [|split; [reflexivity|]].
  - rewrite !group_stat_Num.
    destruct (select_restricted labs lvl1 lvl2 qs) as [-> ->].
    reflexivity.
  - apply values_combine. unfold sample_labels.
    rewrite !length_map, zrange_length. symmetry; exact Lss.
Qed.

(** C2.  For a valid call with [R >= 1], the difference distribution
    that [run_hypothesis] returns has exactly [R] entries. *)
Theorem run_hypothesis_distribution_length {V : Type} `{Scalar V}
    (self : Resample) (df : DataFrame)
    (target levels : string) (labs : Series) (qs : list Q)
    (lvl1 lvl2 : cell) (R : Z) (func : Series -> result V) (f : list Q -> V)
    (g : G) :
  method self = "bootstrap" \/ method self = "permutation" ->
  valid_call df target levels labs qs ->
  stat_total func f ->
  (1 <= R)%Z ->
  exists tbl diff p g',
    run_hypothesis self df target levels lvl1 lvl2 R func g
    = Ok ((tbl, diff, p), g')
    /\ Z.of_nat (length diff) = R.
Proof.
  intros Hm Hv Hf HR.
  assert (Hm' : exists replace : bool,
             method self = if replace then "bootstrap" else "permutation").
  { destruct Hm as [Hm|Hm]; [exists true | exists false]; exact Hm. }
  destruct Hm' as [replace Hm'].
  unfold run_hypothesis, bind.
  rewrite (run_hypothesis_body_locals self replace df target levels labs qs
             lvl1 lvl2 R func f g Hm' Hv Hf HR).
  unfold locals_at_return.
  pose proof (draw_samples_length (Z.to_nat R)
                (map Num (select (restricted_mask labs lvl1 lvl2) qs)) replace g)
    as Lss.
  match goal with
  | |- context [draw_samples ?k ?p ?r ?s] =>
      destruct (draw_samples k p r s) as [ss g']
  end.
  cbn [ret resampled_ resampled_diff pval fst] in *.
  do 4 eexists. split; [reflexivity|].
  unfold sample_labels.
  rewrite length_combine, !length_map, zrange_length, Lss. lia.
Qed.

(** For [R < 1] the loop body never runs, the table keeps its single
    column named [levels], and the lookup of column 0 raises. *)
Lemma run_hypothesis_body_small_R {V : Type} `{Scalar V}
    (self : Resample)
    (df : DataFrame) (target levels : string) (labs : Series) (qs : list Q)
    (lvl1 lvl2 : cell) (R : Z) (func : Series -> result V) (f : list Q -> V)
    (g : G) :
  method self = "bootstrap" \/ method self = "permutation" ->
  valid_call df target levels labs qs ->
  stat_total func f ->
  (R < 1)%Z ->
  run_hypothesis_body self df target levels lvl1 lvl2 R func g = Err KeyError.
Proof.
  intros Hm [Hwf Hlev Htgt Hd Hli Hti] Hf HR.
  assert (E1 : (levels =? levels) = true) by apply String.eqb_refl.
  assert (E2 : (target =? target) = true) by apply String.eqb_refl.
  assert (E3 : (target =? levels) = false) by (apply String.eqb_neq; congruence).
  assert (E4 : (levels =? "index") = false) by (apply String.eqb_neq; congruence).
  assert (E5 : (target =? "index") = false) by (apply String.eqb_neq; congruence).
  assert (E6 : ("index" =? levels) = false) by (apply String.eqb_neq; congruence).
  assert (E7 : ("index" =? target) = false) by (apply String.eqb_neq; congruence).
  unfold run_hypothesis_body.
  set (m := mask_or (eq_mask labs lvl1) (eq_mask labs lvl2)).
  unfold bind at 1. rewrite (getitem_cols_two _ _ _ _ _ Hlev Htgt). cbn [lift].
  unfold bind at 1. cbn [getitem columns lookup_col colname_eqb]. rewrite E1. cbn [lift].
  unfold bind at 1. cbn [lift]. fold m.
  unfold bind at 1. unfold reset_index, has_col.
  cbn [getitem_mask columns index map fst snd existsb colname_eqb].
  rewrite E6, E7. cbn [orb lift].
  match goal with |- context [getitem (CStr levels) ?d] => set (df3 := d) end.
  assert (D1 : getitem (CStr levels) df3 = Ok (select m labs)).
  { unfold df3, getitem; cbn [columns lookup_col colname_eqb]. rewrite E4, E1. reflexivity. }
  assert (D2 : forall mk, getitem (CStr target) (getitem_mask mk df3)
                          = Ok (select mk (map Num (select m qs)))).
  { intro mk. unfold df3, getitem, getitem_mask.
    cbn [columns lookup_col colname_eqb map fst snd]. rewrite E5, E3, E2.
    rewrite <- select_map. reflexivity. }
  unfold bind at 1. rewrite ?D1. cbn [lift].
  unfold bind at 1. rewrite D2. cbn [lift].
  unfold bind at 1. cbn [lift].
  unfold bind at 1. rewrite D2. cbn [lift].
  rewrite !select_map, !Hf.
  unfold bind at 1. cbn [lift]. unfold bind at 1. cbn [lift].
  unfold bind at 1. rewrite (getitem_cols_one _ _ _ D1). cbn [lift].
  replace (Z.to_nat R) with O by lia. cbn [for_range].
  assert (Hloop : forall (acc : DataFrame),
    (if method self =? "bootstrap" then ret acc
     else if method self =? "permutation" then ret acc
          else raise (SystemExit msg_method)) = (ret acc : M G DataFrame)).
  { intro acc. destruct Hm as [-> | ->]; reflexivity. }
  rewrite Hloop.
  unfold bind at 1. cbn [ret].
  unfold bind at 1. cbn [getitem columns lookup_col colname_eqb lift].
  reflexivity.
Qed.

End RunHypothesisClaims.

Lemma df_AB_valid :
  valid_call df_AB "var1" "levels" (strs ["A"; "A"; "B"; "B"]) [4; 3; 7; 5].
Proof.
  constructor; try reflexivity; try discriminate.
  repeat constructor.
Qed.

Section SmallR.

Context {G : Type} `{RandomState G}.

(** C4 (amended).  For a valid call with [R < 1] and a total statistic,
    [run_hypothesis] returns no result: the loop body never runs and the
    lookup of column 0 in the table, whose only column is still named
    [levels], raises [KeyError]. *)
Theorem run_hypothesis_small_R_KeyError {V : Type} `{Scalar V}
    (self : Resample) (df : DataFrame)
    (target levels : string) (labs : Series) (qs : list Q)
    (lvl1 lvl2 : cell) (R : Z) (func : Series -> result V) (f : list Q -> V)
    (g : G) :
  method self = "bootstrap" \/ method self = "permutation" ->
  valid_call df target levels labs qs ->
  stat_total func f ->
  (R < 1)%Z ->
  run_hypothesis self df target levels lvl1 lvl2 R func g = Err KeyError.
Proof.
  intros Hm Hv Hf HR. unfold run_hypothesis, bind.
  rewrite (run_hypothesis_body_small_R self df target levels labs qs
             lvl1 lvl2 R func f g Hm Hv Hf HR).
  reflexivity.
Qed.

End SmallR.

Lemma run_hypothesis_small_R_KeyError_witness :
  (0 < 1)%Z /\
  run_hypothesis bootstrap_engine df_AB "var1" "levels" (Str "A") (Str "B")
    0 np_mean 1%Z = Err KeyError.
Proof.
  split; [lia|].
  apply (run_hypothesis_small_R_KeyError bootstrap_engine df_AB "var1" "levels"
           (strs ["A"; "A"; "B"; "B"]) [4; 3; 7; 5] (Str "A") (Str "B") 0
           np_mean mean 1%Z).
  - left; reflexivity.
  - exact df_AB_valid.
  - apply numeric_stat_total.
  - lia.
Defined.

(** C4, counterexample.  With [R = 0] the call on the docstring data
    does not fail with [InvalidArgument]. *)
Lemma run_hypothesis_R0_not_InvalidArgument :
  ~ fails_with InvalidArgument
      (run_hypothesis bootstrap_engine df_AB "var1" "levels"
         (Str "A") (Str "B") 0 np_mean 1%Z).
Proof.
  intros [e [E K]]. vm_compute in E. injection E as <-. discriminate K.
Qed.

Lemma run_hypothesis_pvalue_witness :
  exists tbl diff p g' ss,
    run_hypothesis bootstrap_engine df_AB "var1" "levels" (Str "A") (Str "B")
      3 np_max64 1%Z = Ok ((tbl, diff, p), g')
    /\ p = inject_Z (Z.of_nat
             (count_nonneg
                (ssub (maximum64 (select (eq_mask (strs ["A"; "A"; "B"; "B"]) (Str "A"))
                                         [4; 3; 7; 5]))
                      (maximum64 (select (eq_mask (strs ["A"; "A"; "B"; "B"]) (Str "B"))
                                         [4; 3; 7; 5])))
                (values diff)))
           / inject_Z 3
    /\ columns tbl
       = (CStr "levels",
          select (restricted_mask (strs ["A"; "A"; "B"; "B"]) (Str "A") (Str "B"))
                 (strs ["A"; "A"; "B"; "B"]))
           :: combine (sample_labels 3) ss
    /\ values diff
       = map (fun s =>
                ssub (group_stat maximum64
                        (select (restricted_mask (strs ["A"; "A"; "B"; "B"])
                                                 (Str "A") (Str "B"))
                                (strs ["A"; "A"; "B"; "B"])) (Str "A") s)
                     (group_stat maximum64
                        (select (restricted_mask (strs ["A"; "A"; "B"; "B"])
                                                 (Str "A") (Str "B"))
                                (strs ["A"; "A"; "B"; "B"])) (Str "B") s))
             ss.
Proof.
  apply (run_hypothesis_pvalue bootstrap_engine df_AB "var1" "levels"
           (strs ["A"; "A"; "B"; "B"]) [4; 3; 7; 5] (Str "A") (Str "B") 3
           np_max64 maximum64 1%Z).
  - left; reflexivity.
  - exact df_AB_valid.
  - apply numeric_stat_total.
  - lia.
Defined.

(** C1, counterexample.  Two rows with the target values [2^1023]
    under label A and [-2^1023] under label B, [np.max], one permutation
    resample that leaves the rows in place: the observed difference and
    the resampled difference both overflow to plus infinity.  The
    resampled difference is at least the observed one, yet the p-value is
    0 and not 1/1: infinity minus infinity is NaN, and NaN >= 0 is
    false. *)
Lemma run_hypothesis_pvalue_overflow :
  exists tbl diff p g',
    run_hypothesis permutation_engine df_huge "var1" "levels" (Str "A") (Str "B")
      1 np_max64 2%Z = Ok ((tbl, diff, p), g')
    /\ ssub (maximum64 [inject_Z (2 ^ 1023)]) (maximum64 [inject_Z (- 2 ^ 1023)])
       = S754_infinity false
    /\ values diff = [S754_infinity false]
    /\ length (filter (fun d => SFleb (S754_infinity false) d) (values diff))
       = 1%nat
    /\ p == 0
    /\ ~ p == inject_Z 1 / inject_Z 1.
Proof.
  vm_compute run_hypothesis.
  do 4 eexists. split; [reflexivity|].
  split; [vm_compute; reflexivity|].
  split; [reflexivity|].
  split; [reflexivity|].
  split; [reflexivity|].
  intro E. discriminate E.
Qed.

Lemma run_hypothesis_distribution_length_witness :
  exists tbl diff p g',
    run_hypothesis permutation_engine df_AB "var1" "levels" (Str "A") (Str "B")
      3 np_mean 1%Z = Ok ((tbl, diff, p), g')
    /\ Z.of_nat (length diff) = 3%Z.
Proof.
  apply (run_hypothesis_distribution_length permutation_engine df_AB
           "var1" "levels" (strs ["A"; "A"; "B"; "B"]) [4; 3; 7; 5]
           (Str "A") (Str "B") 3 np_mean mean 1%Z).
  - right; reflexivity.
  - exact df_AB_valid.
  - apply numeric_stat_total.
  - lia.
Defined.

(** ** Permutation resamples *)

Lemma take_all (s : Series) : take (seq 0 (length s)) s = s.
Proof.
  unfold take. apply (nth_ext _ _ (Num 0) (Num 0)).
  - rewrite length_map, length_seq; reflexivity.
  - intros n Hn. rewrite length_map, length_seq in Hn.
    rewrite (nth_indep _ (Num 0) (nth 0 s (Num 0)))
      by (rewrite length_map, length_seq; exact Hn).
    rewrite (map_nth (fun i => nth i s (Num 0)) (seq 0 (length s)) 0%nat n).
    rewrite seq_nth by exact Hn. reflexivity.
Qed.

(** Taking every position exactly once gives a permutation. *)
Lemma take_permutation (locs : list nat) (s : Series) :
  NoDup locs ->
  length locs = length s ->
  Forall (fun i => (i < length s)%nat) locs ->
  Permutation (take locs s) s.
Proof.
  intros Hnd Hlen Hrange.
  assert (Hp : Permutation locs (seq 0 (length s))).
  { apply NoDup_Permutation_bis.
    - exact Hnd.
    - rewrite length_seq, Hlen. apply Nat.le_refl.
    - intros i Hi. rewrite Forall_forall in Hrange.
      apply in_seq. specialize (Hrange i Hi). lia. }
  rewrite <- (take_all s) at 2.
  unfold take. apply Permutation_map. exact Hp.
Qed.

Section Permutations.

Context {G : Type} `{RandomState G}.

Lemma draw_samples_permutation (k : nat) (pop : Series) (g : G) :
  Forall (fun s => Permutation s pop) (fst (draw_samples k pop false g)).
Proof.
  revert g; induction k as [|k IH]; intro g; simpl; [constructor|].
  pose proof (choice_length (length pop) (length pop) false g
                (or_intror (Nat.le_refl _))) as Hlen.
  pose proof (choice_nodup (length pop) (length pop) g (Nat.le_refl _)) as Hnd.
  pose proof (choice_range (length pop) (length pop) false g) as Hrange.
  destruct (choice (length pop) (length pop) false g) as [locs g1].
  specialize (IH g1).
  destruct (draw_samples k pop false g1) as [rest g2]; cbn [fst] in *.
  constructor; [|exact IH].
  destruct pop as [|c pop'].
  - destruct locs; [constructor | discriminate Hlen].
  - apply take_permutation; try assumption.
    apply Hrange. simpl; lia.
Qed.

(** C8.  In a valid permutation-strategy call with [R >= 1] the table
    that [run_hypothesis] returns holds the labels of the kept rows and
    [R] resample columns, labelled 1..R, each of which is a permutation
    of the target column restricted to the kept rows: same length, same
    cells with the same multiplicities. *)
Theorem run_hypothesis_permutation_resamples {V : Type} `{Scalar V}
    (self : Resample) (df : DataFrame)
    (target levels : string) (labs : Series) (qs : list Q)
    (lvl1 lvl2 : cell) (R : Z) (func : Series -> result V) (f : list Q -> V)
    (g : G) :
  method self = "permutation" ->
  valid_call df target levels labs qs ->
  stat_total func f ->
  (1 <= R)%Z ->
  exists tbl diff p g' ss,
    run_hypothesis self df target levels lvl1 lvl2 R func g
    = Ok ((tbl, diff, p), g')
    /\ columns tbl
       = (CStr levels, select (restricted_mask labs lvl1 lvl2) labs)
           :: combine (sample_labels R) ss
    /\ Z.of_nat (length ss) = R
    /\ Forall (fun s =>
                 Permutation s (select (restricted_mask labs lvl1 lvl2)
                                       (map Num qs))
                 /\ length s = length (select (restricted_mask labs lvl1 lvl2)
                                              (map Num qs))) ss.
Proof.
  intros Hm Hv Hf HR.
  unfold run_hypothesis, bind.
  rewrite (run_hypothesis_body_locals self false df target levels labs qs
             lvl1 lvl2 R func f g Hm Hv Hf HR).
  unfold locals_at_return.
  set (pop := map Num (select (restricted_mask labs lvl1 lvl2) qs)).
  pose proof (draw_samples_length (Z.to_nat R) pop false g) as Lss.
  pose proof (draw_samples_permutation (Z.to_nat R) pop g) as Pss.
  destruct (draw_samples (Z.to_nat R) pop false g) as [ss g'].
  cbn [ret resampled_ resampled_diff pval fst columns] in *.
  exists (mkDataFrame
            (zrange 0 (length (select (restricted_mask labs lvl1 lvl2) (index df))))
            ((CStr levels, select (restricted_mask labs lvl1 lvl2) labs)
               :: combine (sample_labels R) ss)).
  do 3 eexists. exists ss.
  split; [reflexivity|]. split; [reflexivity|]. split; [apply (f_equal Z.of_nat) in Lss; rewrite Z2Nat.id in Lss by lia; exact Lss|].
  rewrite select_map. fold pop.
  eapply Forall_impl; [|exact Pss].
  intros s Hs. split; [exact Hs | apply Permutation_length; exact Hs].
Qed.

End Permutations.

Lemma run_hypothesis_permutation_resamples_witness :
  exists tbl diff p g' ss,
    run_hypothesis permutation_engine df_AB "var1" "levels"
      (Str "A") (Str "B") 3 np_mean 1%Z = Ok ((tbl, diff, p), g')
    /\ columns tbl
       = (CStr "levels",
          select (restricted_mask (strs ["A"; "A"; "B"; "B"]) (Str "A") (Str "B"))
                 (strs ["A"; "A"; "B"; "B"]))
           :: combine (sample_labels 3) ss
    /\ Z.of_nat (length ss) = 3%Z
    /\ Forall (fun s =>
                 Permutation s
                   (select (restricted_mask (strs ["A"; "A"; "B"; "B"])
                                            (Str "A") (Str "B"))
                           (map Num [4; 3; 7; 5]))
                 /\ length s
                    = length
                        (select (restricted_mask (strs ["A"; "A"; "B"; "B"])
                                                 (Str "A") (Str "B"))
                                (map Num [4; 3; 7; 5]))) ss.
Proof.
  apply (run_hypothesis_permutation_resamples permutation_engine df_AB
           "var1" "levels" (strs ["A"; "A"; "B"; "B"]) [4; 3; 7; 5]
           (Str "A") (Str "B") 3 np_mean mean 1%Z).
  - reflexivity.
  - exact df_AB_valid.
  - apply numeric_stat_total.
  - lia.
Defined.

(** ** Sorting and percentiles *)
















(** ** Unfolding a successful computation *)



Section ConfidenceInterval.

Context {G : Type} `{RandomState G}.



End ConfidenceInterval.

(** ** The distribution of [estimate_ci] *)

Lemma relabel_cons2 (c0 c1 : Series) (ss : list Series) :
  relabel (c0 :: c1 :: ss)
  = (CInt 0, c0) :: (CInt 1, c1) :: combine (map CInt (zrange 2 (length ss))) ss.
Proof. reflexivity. Qed.

(** Labels [s], [s+1], ... up to [hi + 1]: the slice that ends at [hi]
    drops the last column. *)
Lemma slice_drops_last (lo hi s : Z) (k : nat) (ss : list Series) :
  length ss = k -> (1 <= k)%nat -> (lo <= s)%Z ->
  (s + Z.of_nat k = hi + 2)%Z ->
  filter (fun c : colname * Series => in_slice lo hi (fst c))
         (combine (map CInt (zrange s k)) ss)
  = combine (map CInt (zrange s (k - 1))) (removelast ss).
Proof.
  revert s ss; induction k as [|k IH]; intros s ss Hlen Hk Hlo Hhi; [lia|].
  destruct ss as [|x ss]; [discriminate|]. injection Hlen as Hlen.
  destruct k as [|k].
  - destruct ss; [|discriminate]. simpl.
    replace (lo <=? s)%Z with true by (symmetry; apply Z.leb_le; lia).
    replace (s <=? hi)%Z with false by (symmetry; apply Z.leb_gt; lia).
    reflexivity.
  - destruct ss as [|y ss]; [discriminate|].
    change (zrange s (S (S k))) with (s :: zrange (s + 1) (S k)).
    change (removelast (x :: y :: ss)) with (x :: removelast (y :: ss)).
    replace (S (S k) - 1)%nat with (S k) by lia.
    change (zrange s (S k)) with (s :: zrange (s + 1) k).
    cbn [map combine filter fst in_slice].
    replace (lo <=? s)%Z with true by (symmetry; apply Z.leb_le; lia).
    replace (s <=? hi)%Z with true by (symmetry; apply Z.leb_le; lia).
    cbn [andb]. f_equal.
    rewrite (IH (s + 1)%Z (y :: ss)) by (simpl in *; lia).
    replace (S k - 1)%nat with k by lia. reflexivity.
Qed.

Lemma int_labels_plain (zs : list Z) (ss : list Series) :
  forallb (fun c : colname * Series => is_int_label (fst c))
          (combine (map CInt zs) ss) = true.
Proof.
  revert ss; induction zs as [|z zs IH]; intros [|s ss]; simpl; auto.
Qed.

Lemma Forall_removelast {A : Type} (P : A -> Prop) (l : list A) :
  Forall P l -> Forall P (removelast l).
Proof.
  induction 1 as [|a l Ha Hl IH]; [constructor|].
  destruct l as [|b l]; [constructor|].
  change (removelast (a :: b :: l)) with (a :: removelast (b :: l)).
  constructor; assumption.
Qed.

Section EstimateCi.

Context {G : Type} `{RandomState G}.

Lemma estimate_ci_eq (self : Resample) (df : DataFrame)
    (target levels : string) (labs : Series) (qs : list Q) (lvl : cell)
    (R : Z) (func : Series -> result Q) (f : list Q -> Q) (v0 : Q)
    (alpha_level : Q) (g : G) :
  method self = "bootstrap" ->
  valid_call df target levels labs qs ->
  stat_total func f ->
  func (select (eq_mask labs lvl) labs) = Ok v0 ->
  (1 <= R)%Z ->
  estimate_ci self df target levels lvl R func alpha_level g
  = expected_ci labs qs lvl R f v0 alpha_level g.
Proof.
  intros Hm [Hwf Hlev Htgt Hd Hli Hti] Hf Hv0 HR.
  assert (E1 : (levels =? levels) = true) by apply String.eqb_refl.
  assert (E2 : (target =? target) = true) by apply String.eqb_refl.
  assert (E3 : (target =? levels) = false) by (apply String.eqb_neq; congruence).
  assert (E4 : (levels =? "index") = false) by (apply String.eqb_neq; congruence).
  assert (E5 : (target =? "index") = false) by (apply String.eqb_neq; congruence).
  assert (E6 : ("index" =? levels) = false) by (apply String.eqb_neq; congruence).
  assert (E7 : ("index" =? target) = false) by (apply String.eqb_neq; congruence).
  pose proof (wf_getitem_length _ _ _ Hwf Hlev) as Llab.
  pose proof (wf_getitem_length _ _ _ Hwf Htgt) as Ltgt.
  unfold estimate_ci, expected_ci.
  set (m := eq_mask labs lvl) in *.
  set (labs' := select m labs) in *.
  set (pop := map Num (select m qs)).
  rewrite Hm. cbn [String.eqb Ascii.eqb Bool.eqb].
  unfold bind at 1. unfold bind at 1.
  rewrite (getitem_cols_two _ _ _ _ _ Hlev Htgt). cbn [lift].
  unfold bind at 1. cbn [getitem columns lookup_col colname_eqb]. rewrite E1. cbn [lift].
  fold m.
  unfold bind at 1. unfold reset_index, has_col.
  cbn [getitem_mask columns index map fst snd existsb colname_eqb].
  rewrite E6, E7. cbn [orb lift]. fold labs'.
  match goal with |- context [drop_column (CStr target) ?d] => set (df3 := d) end.
  assert (D3 : getitem (CStr target) df3 = Ok pop).
  { unfold df3, getitem; cbn [columns lookup_col colname_eqb]. rewrite E5, E3, E2.
    unfold pop. rewrite <- select_map. reflexivity. }
  assert (D4 : shape0 df3 = length pop).
  { unfold df3, shape0; cbn [index]. rewrite zrange_length.
    unfold pop. rewrite <- select_map. cbn [index].
    apply select_length. symmetry; exact Ltgt. }
  unfold bind at 1. unfold drop_column at 1, has_col.
  unfold df3 at 1 2 3.
  cbn [columns index existsb filter negb fst snd colname_eqb].
  rewrite E5, E3, E2. cbn [orb negb lift].
  unfold bind at 1. rewrite (for_range_resample df3 target true pop _ _ _ D3 D4).
  pose proof (draw_samples_length (Z.to_nat R) pop true g) as Lss.
  pose proof (draw_samples_numeric (Z.to_nat R) (select m qs) true g) as Nss.
  fold pop in Nss.
  destruct (draw_samples (Z.to_nat R) pop true g) as [ss g'].
  cbn [fst] in Lss, Nss.
  destruct ss as [|s0 ss0]; [simpl in Lss; lia|].
  set (ss := s0 :: ss0) in *.
  cbn [columns index map snd app]. rewrite relabel_cons2.
  unfold bind at 1. unfold loc_slice.
  cbn [columns index forallb fst is_int_label andb filter in_slice].
  rewrite int_labels_plain.
  replace ((1 <=? 0)%Z && (0 <=? R)%Z)%bool with false by reflexivity.
  replace ((1 <=? 1)%Z && (1 <=? R)%Z)%bool with true
    by (symmetry; apply andb_true_iff; split; apply Z.leb_le; lia).
  rewrite (slice_drops_last 1 R 2 (length ss) ss eq_refl)
    by (change (length ss) with (Z.to_nat R) || rewrite ?Lss; lia).
  cbn [lift].
  unfold bind at 1. unfold apply_axis0 at 1.
  cbn [columns mapR fst snd]. rewrite Hv0.
  match goal with
  | |- context [mapR ?h (combine ?ls ?cs)] =>
      change (mapR h (combine ls cs))
        with (apply_axis0 func (mkDataFrame (zrange 0 (shape0 df3)) (combine ls cs)))
  end.
  rewrite (apply_axis0_columns func f _ _ _ Hf (Forall_removelast _ _ Nss)).
  cbn [lift].
  assert (Elab : sample_labels R
                 = CInt 1 :: map CInt (zrange 2 (length ss - 1))).
  { unfold sample_labels. rewrite <- Lss.
    change (length ss) with (S (length ss0)).
    replace (S (length ss0) - 1)%nat with (length ss0) by lia.
    reflexivity. }
  rewrite Elab. cbn [combine].
  set (stat := (CInt 1, v0) :: combine _ _).
  unfold bind, lift, ret.
  destruct (np_percentile (values stat) (100 - (1 # 2) * 100 * alpha_level));
    [|reflexivity].
  destruct (np_percentile (values stat) ((1 # 2) * 100 * alpha_level));
    reflexivity.
Qed.

End EstimateCi.

(** ** Claims about [estimate_ci] *)

Section PermutationCi.

Context {G : Type} `{RandomState G}.

(** C5.  On an engine constructed with the permutation strategy,
    [estimate_ci] raises the [SystemExit] of its unsupported-operation
    message whatever its arguments and the generator state are: nothing
    is returned, neither a distribution nor an interval. *)
Theorem estimate_ci_permutation_unsupported (self : Resample) (df : DataFrame)
    (target levels : string) (lvl : cell) (R : Z)
    (func : Series -> result Q) (alpha_level : Q) (g : G) :
  Resample_init "permutation" = Ok self ->
  estimate_ci self df target levels lvl R func alpha_level g
  = Err (SystemExit msg_ci)
  /\ fails_with UnsupportedOperation
       (estimate_ci self df target levels lvl R func alpha_level g).
Proof.
  intro Hinit. injection Hinit as <-.
  assert (E : estimate_ci (mkResample "permutation") df target levels lvl R
                func alpha_level g = Err (SystemExit msg_ci)) by reflexivity.
  split; [exact E|].
  exists (SystemExit msg_ci). split; [exact E | reflexivity].
Qed.

End PermutationCi.

Lemma estimate_ci_permutation_unsupported_witness :
  Resample_init "permutation" = Ok permutation_engine
  /\ estimate_ci permutation_engine df_AB "var1" "levels" (Str "A") 5 np_mean
       (5 # 100) 1%Z = Err (SystemExit msg_ci)
  /\ fails_with UnsupportedOperation
       (estimate_ci permutation_engine df_AB "var1" "levels" (Str "A") 5 np_mean
          (5 # 100) 1%Z).
Proof.
  split; [reflexivity|].
  apply (estimate_ci_permutation_unsupported permutation_engine df_AB
           "var1" "levels" (Str "A") 5 np_mean (5 # 100) 1%Z).
  reflexivity.
Defined.

Lemma take_repeat (c : cell) (n : nat) (locs : list nat) :
  Forall (fun i => (i < n)%nat) locs ->
  take locs (repeat c n) = repeat c (length locs).
Proof.
  unfold take. induction 1 as [|i locs Hi Hl IH]; simpl; [reflexivity|].
  rewrite IH. f_equal.
  apply nth_repeat_lt; exact Hi.
Qed.

Lemma df_dose_valid :
  valid_call df_dose "var1" "dose" (map Num [1; 1; 1; 2]) [10; 10; 10; 7].
Proof.
  constructor; try reflexivity; try discriminate.
  repeat constructor.
Qed.

Section ConstantGroup.

Context {G : Type} `{RandomState G}.

(** Bootstrap resamples of a column that repeats one cell repeat it too. *)
Lemma draw_samples_repeat (k n : nat) (c : cell) (g : G) :
  (0 < n)%nat ->
  fst (draw_samples k (repeat c n) true g) = repeat (repeat c n) k.
Proof.
  intro Hn. revert g; induction k as [|k IH]; intro g; simpl; [reflexivity|].
  rewrite repeat_length.
  pose proof (choice_length n n true g (or_introl eq_refl)) as Hlen.
  pose proof (choice_range n n true g Hn) as Hrange.
  destruct (choice n n true g) as [locs g1]. cbn [fst] in *.
  specialize (IH g1).
  destruct (draw_samples k (repeat c n) true g1) as [rest g2]. cbn [fst] in *.
  rewrite (take_repeat c n locs Hrange), Hlen, IH. reflexivity.
Qed.

(** C6, the code at the failing input.  The group of dose 1 has the
    target values 10, 10, 10, so every resample has mean 10 whatever the
    generator draws; with [R = 5] and [alpha_level = 0.05] the returned
    distribution nevertheless starts with 1, the mean of the column of
    labels, and the interval is (10, 1.9) instead of (10, 10). *)
Theorem estimate_ci_constant_group (g : G) :
  exists stat upper lower g',
    estimate_ci bootstrap_engine df_dose "var1" "dose" (Num 1) 5 np_mean
      (5 # 100) g = Ok ((stat, (upper, lower)), g')
    /\ Forall2 Qeq (values stat) [1; 10; 10; 10; 10]
    /\ upper == 10
    /\ lower == 19 # 10
    /\ ~ lower == 10.
Proof.
  rewrite (estimate_ci_eq bootstrap_engine df_dose "var1" "dose"
             (map Num [1; 1; 1; 2]) [10; 10; 10; 7] (Num 1) 5 np_mean mean
             (mean [1; 1; 1]) (5 # 100) g eq_refl df_dose_valid
             (numeric_stat_total mean) eq_refl ltac:(lia)).
  unfold expected_ci.
  change (map Num (select (eq_mask (map Num [1; 1; 1; 2]) (Num 1))
                          [10; 10; 10; 7]))
    with (repeat (Num 10) 3).
  pose proof (draw_samples_repeat (Z.to_nat 5) 3 (Num 10) g ltac:(lia)) as Hss.
  destruct (draw_samples (Z.to_nat 5) (repeat (Num 10) 3) true g) as [ss g'].
  cbn [fst] in Hss. subst ss.
  vm_compute.
  do 4 eexists. split; [reflexivity|].
  repeat split; try discriminate; repeat constructor.
Qed.

End ConstantGroup.



(** ** A label that selects no row *)


Lemma np_percentile_defined (a : list Q) (q : Q) :
  a <> [] -> 0 <= q -> q <= 100 -> exists r, np_percentile a q = Ok r.
Proof.
  intros Ha H0 H100. unfold np_percentile.
  apply Qle_bool_iff in H0. apply Qle_bool_iff in H100.
  rewrite H0, H100. simpl.
  destruct a as [|x a]; [congruence|]. eexists; reflexivity.
Qed.


Section AbsentLabel.

Context {G : Type} `{RandomState G}.


End AbsentLabel.

Section AbsentLabelClaims.

Context {G : Type} `{RandomState G}.


End AbsentLabelClaims.




(** ** The legacy classes and [Resample] *)

Section Legacy.

Context {G : Type} `{RandomState G}.

Ltac step_both :=
  match goal with
  | |- context [match ?x with Ok _ => _ | Err _ => _ end] =>
      lazymatch x with
      | context [match _ with Ok _ => _ | Err _ => _ end] => fail
      | _ =>
          let a := fresh "a" in
          destruct x as [a|?];
          [try (lazymatch type of a with (_ * _)%type => destruct a end)|]
      end
  end.

(** C10.  For every data set, statistic function, repetition count and
    generator state, the legacy [Bootstrap.calculate_pvalue] returns the
    difference distribution, and prints the observed difference and the
    p-value, that [Resample('bootstrap').run_hypothesis] computes, raises
    what it raises and leaves the generator in the same state; likewise
    [permutation.calculate_pvalue] and
    [Resample('permutation').run_hypothesis]. *)
Theorem legacy_calculate_pvalue_agrees {V : Type} `{Scalar V} (df : DataFrame)
    (target levels : string) (lvl1 lvl2 : cell) (R : Z)
    (func : Series -> result V) (g : G) :
  Bootstrap_calculate_pvalue (Bootstrap_init target levels lvl1 lvl2)
    df R func g
  = (do st <- run_hypothesis_body (mkResample "bootstrap") df target levels
                lvl1 lvl2 R func;
     ret (legacy_view st)) g
  /\
  permutation_calculate_pvalue (permutation_init target levels lvl1 lvl2)
    df R func g
  = (do st <- run_hypothesis_body (mkResample "permutation") df target levels
                lvl1 lvl2 R func;
     ret (legacy_view st)) g.
Proof.
  split.
  - unfold Bootstrap_calculate_pvalue, run_hypothesis_body, Bootstrap_init,
      legacy_view.
    cbn [b_levels b_target b_lvl1 b_lvl2 method String.eqb Ascii.eqb Bool.eqb].
    cbv [bind lift ret].
    repeat (step_both; try reflexivity).
  - unfold permutation_calculate_pvalue, run_hypothesis_body, permutation_init,
      legacy_view.
    cbn [p_levels p_target p_lvl1 p_lvl2 method String.eqb Ascii.eqb Bool.eqb].
    cbv [bind lift ret].
    repeat (step_both; try reflexivity).
Qed.

End Legacy.

(** ** The random source *)

Section RandomSource.

Context {G : Type} `{RandomState G}.


End RandomSource.



(** * Further properties of the engine *)

(** ** The result of a valid two-group test *)

Lemma count_nonneg_le_length {V : Type} `{Scalar V} (x : V) (l : list V) :
  (count_nonneg x l <= length l)%nat.
Proof. unfold count_nonneg. apply filter_length_le. Qed.

Lemma Forall_combine_snd {A B : Type} (P : B -> Prop) (ls : list A) (ss : list B) :
  Forall P ss -> Forall (fun c => P (snd c)) (combine ls ss).
Proof.
  intro Hss. revert ls; induction Hss as [|s ss Hs Hss IH]; intros [|l ls];
    simpl; constructor; auto.
Qed.

Lemma take_incl (locs : list nat) (s : Series) :
  Forall (fun i => (i < length s)%nat) locs -> incl (take locs s) s.
Proof.
  intros Hl c Hc. unfold take in Hc. apply in_map_iff in Hc.
  destruct Hc as [i [<- Hi]]. rewrite Forall_forall in Hl.
  apply nth_In. apply Hl; exact Hi.
Qed.

Lemma take_length (locs : list nat) (s : Series) : length (take locs s) = length locs.
Proof. unfold take. apply length_map. Qed.

Lemma mask_or_length (m1 m2 : list bool) :
  length m1 = length m2 -> length (mask_or m1 m2) = length m1.
Proof.
  revert m2; induction m1 as [|a m1 IH]; intros [|b m2] Hl; simpl in *;
    try reflexivity; try discriminate.
  injection Hl as Hl. rewrite (IH m2 Hl). reflexivity.
Qed.

Lemma restricted_mask_length (labs : Series) (a b : cell) :
  length (restricted_mask labs a b) = length labs.
Proof.
  unfold restricted_mask, eq_mask.
  rewrite mask_or_length by (rewrite !length_map; reflexivity).
  apply length_map.
Qed.

(** A mask keeps as many entries as it has [true]s. *)
Lemma select_count {A : Type} (m : list bool) (l : list A) :
  length m = length l -> length (select m l) = length (filter (fun b => b) m).
Proof.
  revert l; induction m as [|b m IH]; intros [|x l] Hl; simpl in *;
    try reflexivity; try discriminate.
  injection Hl as Hl. destruct b; simpl; rewrite (IH l Hl); reflexivity.
Qed.

Section TwoGroupResult.

Context {G : Type} `{RandomState G}.

(** Every resample has as many cells as the column it is drawn from. *)
Lemma draw_samples_lengths (k : nat) (pop : Series) (replace : bool) (g : G) :
  Forall (fun s => length s = length pop) (fst (draw_samples k pop replace g)).
Proof.
  revert g; induction k as [|k IH]; intro g; simpl; [constructor|].
  pose proof (choice_length (length pop) (length pop) replace g
                (or_intror (Nat.le_refl _))) as Hlen.
  destruct (choice (length pop) (length pop) replace g) as [locs g1].
  specialize (IH g1).
  destruct (draw_samples k pop replace g1) as [rest g2]; cbn [fst] in *.
  constructor; [|exact IH]. rewrite take_length. exact Hlen.
Qed.

(** Every cell of a resample is a cell of the column it is drawn from. *)
Lemma draw_samples_incl (k : nat) (pop : Series) (replace : bool) (g : G) :
  Forall (fun s => incl s pop) (fst (draw_samples k pop replace g)).
Proof.
  revert g; induction k as [|k IH]; intro g; simpl; [constructor|].
  pose proof (choice_length (length pop) (length pop) replace g
                (or_intror (Nat.le_refl _))) as Hlen.
  pose proof (choice_range (length pop) (length pop) replace g) as Hrange.
  destruct (choice (length pop) (length pop) replace g) as [locs g1].
  specialize (IH g1).
  destruct (draw_samples k pop replace g1) as [rest g2]; cbn [fst] in *.
  constructor; [|exact IH].
  destruct pop as [|c pop'].
  - destruct locs; [intros x [] | discriminate Hlen].
  - apply take_incl. apply Hrange. simpl; lia.
Qed.

(** A valid call with [R >= 1] returns what [expected_locals] lists. *)
Lemma run_hypothesis_expected {V : Type} `{Scalar V}
    (self : Resample) (replace : bool)
    (df : DataFrame) (target levels : string) (labs : Series) (qs : list Q)
    (lvl1 lvl2 : cell) (R : Z) (func : Series -> result V) (f : list Q -> V)
    (g : G) :
  method self = (if replace then "bootstrap" else "permutation") ->
  valid_call df target levels labs qs ->
  stat_total func f ->
  (1 <= R)%Z ->
  run_hypothesis self df target levels lvl1 lvl2 R func g
  = Ok ((resampled_ (fst (locals_at_return replace df levels labs qs lvl1 lvl2 R f g)),
         resampled_diff (fst (locals_at_return replace df levels labs qs lvl1 lvl2 R f g)),
         pval (fst (locals_at_return replace df levels labs qs lvl1 lvl2 R f g))),
        snd (locals_at_return replace df levels labs qs lvl1 lvl2 R f g)).
Proof.
  intros Hm Hv Hf HR. unfold run_hypothesis, bind.
  rewrite (run_hypothesis_body_locals self replace df target levels labs qs
             lvl1 lvl2 R func f g Hm Hv Hf HR).
  destruct (locals_at_return replace df levels labs qs lvl1 lvl2 R f g) as [st g'].
  reflexivity.
Qed.

Lemma method_replace (self : Resample) :
  method self = "bootstrap" \/ method self = "permutation" ->
  exists replace : bool,
    method self = if replace then "bootstrap" else "permutation".
Proof.
  intros [Hm|Hm]; [exists true | exists false]; exact Hm.
Qed.

(** X1.  The p-value of a valid call with [R >= 1] lies between 0 and 1. *)
Theorem run_hypothesis_pvalue_range {V : Type} `{Scalar V}
    (self : Resample) (df : DataFrame)
    (target levels : string) (labs : Series) (qs : list Q)
    (lvl1 lvl2 : cell) (R : Z) (func : Series -> result V) (f : list Q -> V)
    (g : G) :
  method self = "bootstrap" \/ method self = "permutation" ->
  valid_call df target levels labs qs ->
  stat_total func f ->
  (1 <= R)%Z ->
  exists tbl diff p g',
    run_hypothesis self df target levels lvl1 lvl2 R func g
    = Ok ((tbl, diff, p), g')
    /\ 0 <= p /\ p <= 1.
Proof.
  intros Hm Hv Hf HR. destruct (method_replace self Hm) as [replace Hm'].
  rewrite (run_hypothesis_expected self replace df target levels labs qs
             lvl1 lvl2 R func f g Hm' Hv Hf HR).
  unfold locals_at_return.
  pose proof (draw_samples_length (Z.to_nat R)
                (map Num (select (restricted_mask labs lvl1 lvl2) qs)) replace g)
    as Lss.
  match goal with
  | |- context [draw_samples ?k ?p ?r ?s] =>
      destruct (draw_samples k p r s) as [ss g']
  end.
  cbn [fst snd resampled_ resampled_diff pval] in *.
  do 4 eexists. split; [reflexivity|].
  match goal with
  | |- context [count_nonneg ?x ?l] =>
      pose proof (count_nonneg_le_length x l) as Hc; set (c := count_nonneg x l) in *
  end.
  rewrite values_combine in Hc
    by (unfold sample_labels; rewrite !length_map, zrange_length;
        symmetry; exact Lss).
  rewrite length_map in Hc.
  assert (HRq : 0 < inject_Z R).
  { change 0 with (inject_Z 0). rewrite <- Zlt_Qlt. lia. }
  split.
  - apply Qle_shift_div_l; [exact HRq|].
    rewrite Qmult_0_l. change 0 with (inject_Z 0). rewrite <- Zle_Qle. lia.
  - apply Qle_shift_div_r; [exact HRq|].
    rewrite Qmult_1_l. rewrite <- Zle_Qle.
    apply (f_equal Z.of_nat) in Lss. rewrite Z2Nat.id in Lss by lia.
    rewrite <- Lss. apply Nat2Z.inj_le. exact Hc.
Qed.

(** X2.  In a valid bootstrap call with [R >= 1] every resample column
    of the returned table has one cell per kept row, and each of its cells
    is a cell of the target column restricted to the kept rows: sampling
    with replacement fabricates no value. *)
Theorem run_hypothesis_bootstrap_resamples {V : Type} `{Scalar V}
    (self : Resample) (df : DataFrame)
    (target levels : string) (labs : Series) (qs : list Q)
    (lvl1 lvl2 : cell) (R : Z) (func : Series -> result V) (f : list Q -> V)
    (g : G) :
  method self = "bootstrap" ->
  valid_call df target levels labs qs ->
  stat_total func f ->
  (1 <= R)%Z ->
  exists tbl diff p g' ss,
    run_hypothesis self df target levels lvl1 lvl2 R func g
    = Ok ((tbl, diff, p), g')
    /\ columns tbl
       = (CStr levels, select (restricted_mask labs lvl1 lvl2) labs)
           :: combine (sample_labels R) ss
    /\ Z.of_nat (length ss) = R
    /\ Forall (fun s =>
                 length s = length (select (restricted_mask labs lvl1 lvl2)
                                           (map Num qs))
                 /\ incl s (select (restricted_mask labs lvl1 lvl2)
                                   (map Num qs))) ss.
Proof.
  intros Hm Hv Hf HR.
  rewrite (run_hypothesis_expected self true df target levels labs qs
             lvl1 lvl2 R func f g Hm Hv Hf HR).
  unfold locals_at_return. rewrite select_map.
  set (pop := map Num (select (restricted_mask labs lvl1 lvl2) qs)).
  pose proof (draw_samples_length (Z.to_nat R) pop true g) as Lss.
  pose proof (draw_samples_lengths (Z.to_nat R) pop true g) as Hlen.
  pose proof (draw_samples_incl (Z.to_nat R) pop true g) as Hin.
  destruct (draw_samples (Z.to_nat R) pop true g) as [ss g'].
  cbn [fst snd resampled_ resampled_diff pval columns] in *.
  do 4 eexists. exists ss.
  split; [reflexivity|]. split; [reflexivity|].
  split; [apply (f_equal Z.of_nat) in Lss; rewrite Z2Nat.id in Lss by lia;
          exact Lss|].
  rewrite Forall_forall in *. intros s Hs. split; [apply Hlen | apply Hin]; exact Hs.
Qed.

(** X3.  The table a valid call with [R >= 1] returns is well formed: it
    has [R + 1] columns (the labels and the [R] resamples), its rows are
    numbered 0, 1, ... and there is one per input row labelled [lvl1] or
    [lvl2], and every column has one cell per row. *)
Theorem run_hypothesis_table_well_formed {V : Type} `{Scalar V}
    (self : Resample) (df : DataFrame)
    (target levels : string) (labs : Series) (qs : list Q)
    (lvl1 lvl2 : cell) (R : Z) (func : Series -> result V) (f : list Q -> V)
    (g : G) :
  method self = "bootstrap" \/ method self = "permutation" ->
  valid_call df target levels labs qs ->
  stat_total func f ->
  (1 <= R)%Z ->
  exists tbl diff p g',
    run_hypothesis self df target levels lvl1 lvl2 R func g
    = Ok ((tbl, diff, p), g')
    /\ wf_frame tbl
    /\ Z.of_nat (length (columns tbl)) = (R + 1)%Z
    /\ index tbl
       = zrange 0 (length (filter (fun b => b) (restricted_mask labs lvl1 lvl2))).
Proof.
  intros Hm Hv Hf HR. destruct (method_replace self Hm) as [replace Hm'].
  rewrite (run_hypothesis_expected self replace df target levels labs qs
             lvl1 lvl2 R func f g Hm' Hv Hf HR).
  pose proof (wf_getitem_length _ _ _ (vc_wf _ _ _ _ _ Hv) (vc_levels _ _ _ _ _ Hv))
    as Llab.
  pose proof (wf_getitem_length _ _ _ (vc_wf _ _ _ _ _ Hv) (vc_target _ _ _ _ _ Hv))
    as Ltgt.
  unfold locals_at_return.
  set (m := restricted_mask labs lvl1 lvl2).
  set (pop := map Num (select m qs)).
  assert (Lm : length m = length (index df))
    by (unfold m; rewrite restricted_mask_length; exact Llab).
  assert (Lpop : length pop = length (select m (index df))).
  { unfold pop. rewrite <- select_map. apply select_length. exact Ltgt. }
  pose proof (draw_samples_length (Z.to_nat R) pop replace g) as Lss.
  pose proof (draw_samples_lengths (Z.to_nat R) pop replace g) as Hlen.
  destruct (draw_samples (Z.to_nat R) pop replace g) as [ss g'].
  cbn [fst snd resampled_ resampled_diff pval] in *.
  do 4 eexists. split; [reflexivity|].
  split; [|split].
  - unfold wf_frame. cbn [columns index]. rewrite zrange_length.
    constructor.
    + cbn [snd]. apply select_length. exact Llab.
    + apply (Forall_combine_snd
               (fun s : Series => length s = length (select m (index df)))).
      eapply Forall_impl; [|exact Hlen].
      intros s Hs. cbn beta in Hs. rewrite Hs. exact Lpop.
  - cbn [columns length]. unfold sample_labels.
    rewrite length_combine, !length_map, zrange_length.
    apply (f_equal Z.of_nat) in Lss. rewrite Z2Nat.id in Lss by lia.
    rewrite Nat2Z.inj_succ, Nat2Z.inj_min.
    rewrite Z2Nat.id by lia. lia.
  - cbn [index]. rewrite (select_count m (index df) Lm). reflexivity.
Qed.

End TwoGroupResult.

Lemma run_hypothesis_pvalue_range_witness :
  exists tbl diff p g',
    run_hypothesis bootstrap_engine df_AB "var1" "levels" (Str "A") (Str "B")
      3 np_mean 1%Z = Ok ((tbl, diff, p), g')
    /\ 0 <= p /\ p <= 1.
Proof.
  apply (run_hypothesis_pvalue_range bootstrap_engine df_AB "var1" "levels"
           (strs ["A"; "A"; "B"; "B"]) [4; 3; 7; 5] (Str "A") (Str "B") 3
           np_mean mean 1%Z).
  - left; reflexivity.
  - exact df_AB_valid.
  - apply numeric_stat_total.
  - lia.
Defined.

Lemma run_hypothesis_bootstrap_resamples_witness :
  exists tbl diff p g' ss,
    run_hypothesis bootstrap_engine df_AB "var1" "levels" (Str "A") (Str "B")
      3 np_mean 1%Z = Ok ((tbl, diff, p), g')
    /\ columns tbl
       = (CStr "levels",
          select (restricted_mask (strs ["A"; "A"; "B"; "B"]) (Str "A") (Str "B"))
                 (strs ["A"; "A"; "B"; "B"]))
           :: combine (sample_labels 3) ss
    /\ Z.of_nat (length ss) = 3%Z
    /\ Forall (fun s =>
                 length s
                 = length (select (restricted_mask (strs ["A"; "A"; "B"; "B"])
                                                   (Str "A") (Str "B"))
                                  (map Num [4; 3; 7; 5]))
                 /\ incl s (select (restricted_mask (strs ["A"; "A"; "B"; "B"])
                                                    (Str "A") (Str "B"))
                                   (map Num [4; 3; 7; 5]))) ss.
Proof.
  apply (run_hypothesis_bootstrap_resamples bootstrap_engine df_AB
           "var1" "levels" (strs ["A"; "A"; "B"; "B"]) [4; 3; 7; 5]
           (Str "A") (Str "B") 3 np_mean mean 1%Z).
  - reflexivity.
  - exact df_AB_valid.
  - apply numeric_stat_total.
  - lia.
Defined.

Lemma run_hypothesis_table_well_formed_witness :
  exists tbl diff p g',
    run_hypothesis permutation_engine df_AB "var1" "levels" (Str "A") (Str "B")
      3 np_mean 1%Z = Ok ((tbl, diff, p), g')
    /\ wf_frame tbl
    /\ Z.of_nat (length (columns tbl)) = (3 + 1)%Z
    /\ index tbl
       = zrange 0 (length (filter (fun b => b)
                             (restricted_mask (strs ["A"; "A"; "B"; "B"])
                                              (Str "A") (Str "B")))).
Proof.
  apply (run_hypothesis_table_well_formed permutation_engine df_AB
           "var1" "levels" (strs ["A"; "A"; "B"; "B"]) [4; 3; 7; 5]
           (Str "A") (Str "B") 3 np_mean mean 1%Z).
  - right; reflexivity.
  - exact df_AB_valid.
  - apply numeric_stat_total.
  - lia.
Defined.

(** ** Rows of other levels *)

Lemma lookup_col_select (c : colname) (m : list bool)
    (cols : list (colname * Series)) :
  lookup_col c (map (fun c' => (fst c', select m (snd c'))) cols)
  = match lookup_col c cols with
    | Ok s => Ok (select m s)
    | Err e => Err e
    end.
Proof.
  induction cols as [|[c' s] cols IH]; simpl; [reflexivity|].
  destruct (colname_eqb c c'); [reflexivity | exact IH].
Qed.

(** Selecting the rows of either label a second time changes nothing. *)
Lemma select_restricted_idem {A : Type} (labs : Series) (a b : cell) (l : list A) :
  select (restricted_mask (select (restricted_mask labs a b) labs) a b)
         (select (restricted_mask labs a b) l)
  = select (restricted_mask labs a b) l.
Proof.
  unfold restricted_mask. revert l.
  induction labs as [|c labs IH]; intros [|x l];
    try (rewrite !select_nil_r; reflexivity); simpl; try reflexivity.
  destruct (cell_eqb c a || cell_eqb c b)%bool eqn:E; simpl.
  - rewrite E. simpl. rewrite IH. reflexivity.
  - apply IH.
Qed.

Lemma valid_call_getitem_mask (df : DataFrame) (target levels : string)
    (labs : Series) (qs : list Q) (m : list bool) :
  valid_call df target levels labs qs ->
  valid_call (getitem_mask m df) target levels (select m labs) (select m qs).
Proof.
  intros [Hwf Hlev Htgt Hd Hli Hti]. constructor; try assumption.
  - unfold wf_frame, getitem_mask in *. cbn [columns index].
    apply Forall_map. eapply Forall_impl; [|exact Hwf].
    intros c Hc. cbn [snd]. apply select_length. exact Hc.
  - unfold getitem, getitem_mask in *. cbn [columns].
    rewrite lookup_col_select, Hlev. reflexivity.
  - unfold getitem, getitem_mask in *. cbn [columns].
    rewrite lookup_col_select, Htgt, select_map. reflexivity.
Qed.

Section OtherLevels.

Context {G : Type} `{RandomState G}.

(** X4.  Rows whose label is neither [lvl1] nor [lvl2] have no influence:
    a valid call with [R >= 1] returns on the whole frame exactly what it
    returns, from the same generator state, on the frame reduced
    beforehand to the rows of the two labels. *)
Theorem run_hypothesis_ignores_other_levels {V : Type} `{Scalar V}
    (self : Resample) (df : DataFrame)
    (target levels : string) (labs : Series) (qs : list Q)
    (lvl1 lvl2 : cell) (R : Z) (func : Series -> result V) (f : list Q -> V)
    (g : G) :
  method self = "bootstrap" \/ method self = "permutation" ->
  valid_call df target levels labs qs ->
  stat_total func f ->
  (1 <= R)%Z ->
  run_hypothesis self df target levels lvl1 lvl2 R func g
  = run_hypothesis self (getitem_mask (restricted_mask labs lvl1 lvl2) df)
      target levels lvl1 lvl2 R func g.
Proof.
  intros Hm Hv Hf HR. destruct (method_replace self Hm) as [replace Hm'].
  rewrite (run_hypothesis_expected self replace df target levels labs qs
             lvl1 lvl2 R func f g Hm' Hv Hf HR).
  rewrite (run_hypothesis_expected self replace _ target levels _ _
             lvl1 lvl2 R func f g Hm'
             (valid_call_getitem_mask df target levels labs qs
                (restricted_mask labs lvl1 lvl2) Hv) Hf HR).
  unfold locals_at_return. cbn [getitem_mask index].
  rewrite !select_restricted_idem. reflexivity.
Qed.

End OtherLevels.

Lemma df_ABC_valid :
  valid_call df_ABC "var1" "levels" (strs ["A"; "A"; "B"; "B"; "C"])
    [4; 3; 7; 5; 9].
Proof.
  constructor; try reflexivity; try discriminate.
  repeat constructor.
Qed.

Lemma run_hypothesis_ignores_other_levels_witness :
  run_hypothesis bootstrap_engine df_ABC "var1" "levels" (Str "A") (Str "B")
    3 np_mean 1%Z
  = run_hypothesis bootstrap_engine
      (getitem_mask (restricted_mask (strs ["A"; "A"; "B"; "B"; "C"])
                                     (Str "A") (Str "B")) df_ABC)
      "var1" "levels" (Str "A") (Str "B") 3 np_mean 1%Z.
Proof.
  apply (run_hypothesis_ignores_other_levels bootstrap_engine df_ABC
           "var1" "levels" (strs ["A"; "A"; "B"; "B"; "C"]) [4; 3; 7; 5; 9]
           (Str "A") (Str "B") 3 np_mean mean 1%Z).
  - left; reflexivity.
  - exact df_ABC_valid.
  - apply numeric_stat_total.
  - lia.
Defined.

(** ** The two labels swapped *)

Lemma mask_or_comm (m1 m2 : list bool) : mask_or m1 m2 = mask_or m2 m1.
Proof.
  revert m2; induction m1 as [|a m1 IH]; intros [|b m2]; simpl; try reflexivity.
  rewrite orb_comm, IH. reflexivity.
Qed.

Lemma restricted_mask_comm (labs : Series) (a b : cell) :
  restricted_mask labs a b = restricted_mask labs b a.
Proof. unfold restricted_mask. apply mask_or_comm. Qed.

Section LabelSymmetry.

Context {G : Type} `{RandomState G} {V : Type} `{Scalar V}.

(** X6.  Swapping the two labels, from the same generator state, changes
    neither the table of resamples nor the state the generator is left
    in; resample by resample, the differences of the swapped call
    subtract the same two group statistics in the other order. *)
Theorem run_hypothesis_swapped_labels (self : Resample) (df : DataFrame)
    (target levels : string) (labs : Series) (qs : list Q)
    (lvl1 lvl2 : cell) (R : Z) (func : Series -> result V) (f : list Q -> V)
    (g : G) :
  method self = "bootstrap" \/ method self = "permutation" ->
  valid_call df target levels labs qs ->
  stat_total func f ->
  (1 <= R)%Z ->
  exists tbl diff p diff' p' g' ss,
    run_hypothesis self df target levels lvl1 lvl2 R func g
    = Ok ((tbl, diff, p), g')
    /\ run_hypothesis self df target levels lvl2 lvl1 R func g
       = Ok ((tbl, diff', p'), g')
    /\ columns tbl
       = (CStr levels, select (restricted_mask labs lvl1 lvl2) labs)
           :: combine (sample_labels R) ss
    /\ values diff
       = map (fun s =>
                ssub (group_stat f (select (restricted_mask labs lvl1 lvl2) labs)
                                 lvl1 s)
                     (group_stat f (select (restricted_mask labs lvl1 lvl2) labs)
                                 lvl2 s))
             ss
    /\ values diff'
       = map (fun s =>
                ssub (group_stat f (select (restricted_mask labs lvl1 lvl2) labs)
                                 lvl2 s)
                     (group_stat f (select (restricted_mask labs lvl1 lvl2) labs)
                                 lvl1 s))
             ss.
Proof.
  intros Hm Hv Hf HR. destruct (method_replace self Hm) as [replace Hm'].
  unfold run_hypothesis, bind.
  rewrite (run_hypothesis_body_locals self replace df target levels labs qs
             lvl1 lvl2 R func f g Hm' Hv Hf HR).
  rewrite (run_hypothesis_body_locals self replace df target levels labs qs
             lvl2 lvl1 R func f g Hm' Hv Hf HR).
  unfold locals_at_return.
  rewrite (restricted_mask_comm labs lvl2 lvl1).
  set (labs' := select (restricted_mask labs lvl1 lvl2) labs).
  set (pop := map Num (select (restricted_mask labs lvl1 lvl2) qs)).
  pose proof (draw_samples_length (Z.to_nat R) pop replace g) as Lss.
  destruct (draw_samples (Z.to_nat R) pop replace g) as [ss g'].
  cbn [fst snd ret resampled_ resampled_diff pval columns] in *.
  assert (Lab : forall h : Series -> V,
             length (sample_labels R) = length (map h ss)).
  { intro h. unfold sample_labels. rewrite !length_map, zrange_length.
    symmetry; exact Lss. }
  do 6 eexists. exists ss. split; [reflexivity|]. split; [reflexivity|].
  split; [reflexivity|].
  split; apply values_combine; apply Lab.
Qed.

End LabelSymmetry.

Lemma run_hypothesis_swapped_labels_witness :
  exists tbl diff p diff' p' g' ss,
    run_hypothesis permutation_engine df_AB "var1" "levels" (Str "A") (Str "B")
      3 np_max64 1%Z = Ok ((tbl, diff, p), g')
    /\ run_hypothesis permutation_engine df_AB "var1" "levels" (Str "B") (Str "A")
         3 np_max64 1%Z = Ok ((tbl, diff', p'), g')
    /\ columns tbl
       = (CStr "levels",
          select (restricted_mask (strs ["A"; "A"; "B"; "B"]) (Str "A") (Str "B"))
                 (strs ["A"; "A"; "B"; "B"]))
           :: combine (sample_labels 3) ss
    /\ values diff
       = map (fun s =>
                ssub (group_stat maximum64
                        (select (restricted_mask (strs ["A"; "A"; "B"; "B"])
                                                 (Str "A") (Str "B"))
                                (strs ["A"; "A"; "B"; "B"])) (Str "A") s)
                     (group_stat maximum64
                        (select (restricted_mask (strs ["A"; "A"; "B"; "B"])
                                                 (Str "A") (Str "B"))
                                (strs ["A"; "A"; "B"; "B"])) (Str "B") s))
             ss
    /\ values diff'
       = map (fun s =>
                ssub (group_stat maximum64
                        (select (restricted_mask (strs ["A"; "A"; "B"; "B"])
                                                 (Str "A") (Str "B"))
                                (strs ["A"; "A"; "B"; "B"])) (Str "B") s)
                     (group_stat maximum64
                        (select (restricted_mask (strs ["A"; "A"; "B"; "B"])
                                                 (Str "A") (Str "B"))
                                (strs ["A"; "A"; "B"; "B"])) (Str "A") s))
             ss.
Proof.
  apply (run_hypothesis_swapped_labels permutation_engine df_AB "var1" "levels"
           (strs ["A"; "A"; "B"; "B"]) [4; 3; 7; 5] (Str "A") (Str "B") 3
           np_max64 maximum64 1%Z).
  - right; reflexivity.
  - exact df_AB_valid.
  - apply numeric_stat_total.
  - lia.
Defined.

(** ** Missing columns and a statistic that raises *)

Lemma lookup_col_missing (c : colname) (df : DataFrame) :
  has_col c df = false -> lookup_col c (columns df) = Err KeyError.
Proof.
  unfold has_col. induction (columns df) as [|[c' s] cols IH]; simpl;
    [reflexivity|].
  intro E. apply orb_false_iff in E. destruct E as [E1 E2].
  rewrite E1. apply IH; exact E2.
Qed.

Lemma lookup_col_present (c : colname) (df : DataFrame) :
  has_col c df = true -> exists s, lookup_col c (columns df) = Ok s.
Proof.
  unfold has_col. induction (columns df) as [|[c' s] cols IH]; simpl;
    [discriminate|].
  destruct (colname_eqb c c'); simpl; [intros _; eexists; reflexivity | exact IH].
Qed.

Lemma lookup_col_Err (c : colname) (cols : list (colname * Series)) (e : exn) :
  lookup_col c cols = Err e -> e = KeyError.
Proof.
  induction cols as [|[c' s] cols IH]; simpl.
  - intro E; injection E as <-; reflexivity.
  - destruct (colname_eqb c c'); [discriminate | exact IH].
Qed.

Lemma getitem_cols_two_missing (c1 c2 : colname) (df : DataFrame) :
  has_col c1 df = false \/ has_col c2 df = false ->
  getitem_cols [c1; c2] df = Err KeyError.
Proof.
  intro Hmiss. unfold getitem_cols, mapR.
  destruct (lookup_col c1 (columns df)) as [s1|e1] eqn:E1.
  - destruct Hmiss as [H1|H2].
    + rewrite (lookup_col_missing c1 df H1) in E1. discriminate.
    + rewrite (lookup_col_missing c2 df H2). reflexivity.
  - rewrite (lookup_col_Err _ _ _ E1). reflexivity.
Qed.

Section Failures.

Context {G : Type} `{RandomState G}.

(** X7.  When the frame lacks the grouping column or the target column,
    [run_hypothesis] raises [KeyError], and so does [estimate_ci] on a
    bootstrap engine, whatever the other arguments and the generator
    state are. *)
Theorem missing_column_KeyError (self : Resample) (df : DataFrame)
    (target levels : string) (lvl1 lvl2 : cell) (R : Z)
    (func : Series -> result Q) (alpha_level : Q) (g : G) :
  has_col (CStr levels) df = false \/ has_col (CStr target) df = false ->
  run_hypothesis self df target levels lvl1 lvl2 R func g = Err KeyError
  /\ (method self = "bootstrap" ->
      estimate_ci self df target levels lvl1 R func alpha_level g
      = Err KeyError).
Proof.
  intro Hmiss.
  pose proof (getitem_cols_two_missing (CStr levels) (CStr target) df Hmiss) as E.
  split.
  - unfold run_hypothesis, run_hypothesis_body, bind. rewrite E. reflexivity.
  - intro Hm. unfold estimate_ci, bind. rewrite Hm.
    cbn [String.eqb Ascii.eqb Bool.eqb]. rewrite E. reflexivity.
Qed.

(** X8.  An exception that the statistic raises on the observed group of
    [lvl1], or on that of [lvl2] after it returned on the first, comes out
    of [run_hypothesis] unchanged, for every [R] and generator state. *)
Theorem run_hypothesis_statistic_raises {V : Type} `{Scalar V}
    (self : Resample) (df : DataFrame)
    (target levels : string) (labs : Series) (qs : list Q)
    (lvl1 lvl2 : cell) (R : Z) (func : Series -> result V) (e : exn) (g : G) :
  valid_call df target levels labs qs ->
  func (map Num (select (eq_mask labs lvl1) qs)) = Err e
  \/ ((exists v, func (map Num (select (eq_mask labs lvl1) qs)) = Ok v)
      /\ func (map Num (select (eq_mask labs lvl2) qs)) = Err e) ->
  run_hypothesis self df target levels lvl1 lvl2 R func g = Err e.
Proof.
  intros [Hwf Hlev Htgt Hd Hli Hti] Hraise.
  assert (E1 : (levels =? levels) = true) by apply String.eqb_refl.
  assert (E2 : (target =? target) = true) by apply String.eqb_refl.
  assert (E3 : (target =? levels) = false) by (apply String.eqb_neq; congruence).
  assert (E4 : (levels =? "index") = false) by (apply String.eqb_neq; congruence).
  assert (E5 : (target =? "index") = false) by (apply String.eqb_neq; congruence).
  assert (E6 : ("index" =? levels) = false) by (apply String.eqb_neq; congruence).
  assert (E7 : ("index" =? target) = false) by (apply String.eqb_neq; congruence).
  unfold run_hypothesis. unfold bind at 1. unfold run_hypothesis_body.
  set (m := mask_or (eq_mask labs lvl1) (eq_mask labs lvl2)).
  unfold bind at 1. rewrite (getitem_cols_two _ _ _ _ _ Hlev Htgt). cbn [lift].
  unfold bind at 1. cbn [getitem columns lookup_col colname_eqb]. rewrite E1. cbn [lift].
  unfold bind at 1. cbn [lift]. fold m.
  unfold bind at 1. unfold reset_index, has_col.
  cbn [getitem_mask columns index map fst snd existsb colname_eqb].
  rewrite E6, E7. cbn [orb lift].
  match goal with |- context [getitem (CStr levels) ?d] => set (df3 := d) end.
  assert (D1 : getitem (CStr levels) df3 = Ok (select m labs)).
  { unfold df3, getitem; cbn [columns lookup_col colname_eqb]. rewrite E4, E1. reflexivity. }
  assert (D2 : forall mk, getitem (CStr target) (getitem_mask mk df3)
                          = Ok (select mk (map Num (select m qs)))).
  { intro mk. unfold df3, getitem, getitem_mask.
    cbn [columns lookup_col colname_eqb map fst snd]. rewrite E5, E3, E2.
    rewrite <- select_map. reflexivity. }
  unfold bind at 1. rewrite ?D1. cbn [lift].
  unfold bind at 1. rewrite D2. cbn [lift].
  unfold bind at 1. cbn [lift].
  unfold bind at 1. rewrite D2. cbn [lift].
  rewrite !select_map.
  destruct (select_restricted labs lvl1 lvl2 qs) as [S1 S2].
  unfold restricted_mask in S1, S2. fold m in S1, S2. rewrite S1, S2.
  unfold bind at 1.
  destruct Hraise as [Hx | [[v Hx] Hy]]; rewrite Hx; cbn [lift]; [reflexivity|].
  unfold bind at 1. rewrite Hy. reflexivity.
Qed.

End Failures.

Lemma missing_column_KeyError_witness :
  (has_col (CStr "levels") df_AB = false \/ has_col (CStr "weight") df_AB = false)
  /\ run_hypothesis bootstrap_engine df_AB "weight" "levels" (Str "A") (Str "B")
       3 np_mean 1%Z = Err KeyError
  /\ (method bootstrap_engine = "bootstrap" ->
      estimate_ci bootstrap_engine df_AB "weight" "levels" (Str "A") 3 np_mean
        (5 # 100) 1%Z = Err KeyError).
Proof.
  split; [right; reflexivity|].
  apply (missing_column_KeyError bootstrap_engine df_AB "weight" "levels"
           (Str "A") (Str "B") 3 np_mean (5 # 100) 1%Z).
  right; reflexivity.
Defined.

Lemma run_hypothesis_statistic_raises_witness :
  run_hypothesis bootstrap_engine df_AB "var1" "levels" (Str "A") (Str "C")
    3 mean_nonempty 1%Z = Err (Raised "empty").
Proof.
  apply (run_hypothesis_statistic_raises bootstrap_engine df_AB "var1" "levels"
           (strs ["A"; "A"; "B"; "B"]) [4; 3; 7; 5] (Str "A") (Str "C") 3
           mean_nonempty (Raised "empty") 1%Z).
  - exact df_AB_valid.
  - right. split; [eexists; reflexivity | reflexivity].
Defined.

(** ** The interval of [estimate_ci] *)

Lemma map_fst_combine_eq {A B : Type} (l1 : list A) (l2 : list B) :
  length l1 = length l2 -> map fst (combine l1 l2) = l1.
Proof.
  revert l2; induction l1 as [|a l1 IH]; intros [|b l2] Hl;
    simpl in *; try reflexivity; try discriminate.
  injection Hl as Hl. rewrite (IH l2 Hl); reflexivity.
Qed.

Lemma removelast_length {A : Type} (x : A) (l : list A) :
  length (removelast (x :: l)) = length l.
Proof.
  revert x; induction l as [|y l IH]; intro x; [reflexivity|].
  change (removelast (x :: y :: l)) with (x :: removelast (y :: l)).
  cbn [length]. rewrite IH. reflexivity.
Qed.



Section Interval.

Context {G : Type} `{RandomState G}.

(** X9.  A valid bootstrap [estimate_ci] call with [R >= 1], an
    [alpha_level] from 0 to 2 and a statistic that accepts the column of
    group labels returns.  Its distribution has [R] values labelled 1..R:
    the first is the statistic of the column of group labels, the others
    are the statistics of the resamples but the last, which is drawn and
    not used. *)
Theorem estimate_ci_distribution (self : Resample) (df : DataFrame)
    (target levels : string) (labs : Series) (qs : list Q) (lvl : cell)
    (R : Z) (func : Series -> result Q) (f : list Q -> Q) (v0 : Q)
    (alpha_level : Q) (g : G) :
  method self = "bootstrap" ->
  valid_call df target levels labs qs ->
  stat_total func f ->
  func (select (eq_mask labs lvl) labs) = Ok v0 ->
  (1 <= R)%Z ->
  0 <= alpha_level -> alpha_level <= 2 ->
  exists stat upper lower,
    estimate_ci self df target levels lvl R func alpha_level g
    = Ok ((stat, (upper, lower)),
          snd (draw_samples (Z.to_nat R)
                 (map Num (select (eq_mask labs lvl) qs)) true g))
    /\ map fst stat = sample_labels R
    /\ values stat
       = v0 :: map (fun s => f (map num_of s))
                   (removelast
                      (fst (draw_samples (Z.to_nat R)
                              (map Num (select (eq_mask labs lvl) qs)) true g))).
Proof.
  intros Hm Hv Hf Hv0 HR Ha0 Ha2.
  rewrite (estimate_ci_eq self df target levels labs qs lvl R func f v0
             alpha_level g Hm Hv Hf Hv0 HR).
  unfold expected_ci.
  pose proof (draw_samples_length (Z.to_nat R)
                (map Num (select (eq_mask labs lvl) qs)) true g) as Lss.
  destruct (draw_samples (Z.to_nat R)
              (map Num (select (eq_mask labs lvl) qs)) true g) as [ss g1].
  cbn [fst snd] in *.
  assert (Lab : length (sample_labels R)
                = length (v0 :: map (fun s => f (map num_of s)) (removelast ss))).
  { unfold sample_labels. cbn [length].
    rewrite !length_map, zrange_length.
    destruct ss as [|s0 ss0]; [simpl in Lss; lia|].
    rewrite <- Lss. rewrite removelast_length. reflexivity. }
  pose proof (values_combine _ _ Lab) as Hvals.
  set (stat := combine (sample_labels R)
                 (v0 :: map (fun s => f (map num_of s)) (removelast ss))) in *.
  assert (Hne : values stat <> []) by (rewrite Hvals; discriminate).
  destruct (np_percentile_defined (values stat)
              (100 - (1 # 2) * 100 * alpha_level) Hne) as [u Eu]; [lra | lra |].
  destruct (np_percentile_defined (values stat)
              ((1 # 2) * 100 * alpha_level) Hne) as [lo El]; [lra | lra |].
  rewrite Eu, El.
  exists stat, u, lo. split; [reflexivity|].
  split; [apply map_fst_combine_eq; exact Lab | exact Hvals].
Qed.

(** X10.  For [R < 1] a valid bootstrap [estimate_ci] call raises
    [TypeError]: no column is appended, the table still has its two named
    columns, and pandas refuses the integer slice [1:R] over them. *)
Theorem estimate_ci_small_R_TypeError (self : Resample) (df : DataFrame)
    (target levels : string) (labs : Series) (qs : list Q) (lvl : cell)
    (R : Z) (func : Series -> result Q) (alpha_level : Q) (g : G) :
  method self = "bootstrap" ->
  valid_call df target levels labs qs ->
  (R < 1)%Z ->
  estimate_ci self df target levels lvl R func alpha_level g = Err TypeError.
Proof.
  intros Hm [Hwf Hlev Htgt Hd Hli Hti] HR.
  assert (E1 : (levels =? levels) = true) by apply String.eqb_refl.
  assert (E2 : (target =? target) = true) by apply String.eqb_refl.
  assert (E3 : (target =? levels) = false) by (apply String.eqb_neq; congruence).
  assert (E5 : (target =? "index") = false) by (apply String.eqb_neq; congruence).
  assert (E6 : ("index" =? levels) = false) by (apply String.eqb_neq; congruence).
  assert (E7 : ("index" =? target) = false) by (apply String.eqb_neq; congruence).
  unfold estimate_ci.
  rewrite Hm. cbn [String.eqb Ascii.eqb Bool.eqb].
  unfold bind at 1. unfold bind at 1.
  rewrite (getitem_cols_two _ _ _ _ _ Hlev Htgt). cbn [lift].
  unfold bind at 1. cbn [getitem columns lookup_col colname_eqb]. rewrite E1. cbn [lift].
  unfold bind at 1. unfold reset_index, has_col.
  cbn [getitem_mask columns index map fst snd existsb colname_eqb].
  rewrite E6, E7. cbn [orb lift].
  unfold bind at 1. unfold drop_column at 1, has_col.
  cbn [columns index existsb filter negb fst snd colname_eqb].
  rewrite E5, E3, E2. cbn [orb negb lift].
  replace (Z.to_nat R) with O by lia. cbn [for_range ret].
  unfold bind at 1. unfold loc_slice.
  cbn [columns forallb fst is_int_label andb lift]. reflexivity.
Qed.




End Interval.

Lemma estimate_ci_distribution_witness :
  exists stat upper lower,
    estimate_ci bootstrap_engine df_dose "var1" "dose" (Num 1) 5 np_mean
      (5 # 100) 1%Z
    = Ok ((stat, (upper, lower)),
          snd (draw_samples (Z.to_nat 5)
                 (map Num (select (eq_mask (map Num [1; 1; 1; 2]) (Num 1))
                                  [10; 10; 10; 7])) true 1%Z))
    /\ map fst stat = sample_labels 5
    /\ values stat
       = (3 # 3) :: map (fun s => mean (map num_of s))
                  (removelast
                     (fst (draw_samples (Z.to_nat 5)
                             (map Num (select (eq_mask (map Num [1; 1; 1; 2]) (Num 1))
                                              [10; 10; 10; 7])) true 1%Z))).
Proof.
  apply (estimate_ci_distribution bootstrap_engine df_dose "var1" "dose"
           (map Num [1; 1; 1; 2]) [10; 10; 10; 7] (Num 1) 5 np_mean mean (3 # 3)
           (5 # 100) 1%Z).
  - reflexivity.
  - exact df_dose_valid.
  - apply numeric_stat_total.
  - reflexivity.
  - lia.
  - discriminate.
  - discriminate.
Defined.

Lemma estimate_ci_small_R_TypeError_witness :
  estimate_ci bootstrap_engine df_AB "var1" "levels" (Str "A") 0 np_mean
    (5 # 100) 1%Z = Err TypeError.
Proof.
  apply (estimate_ci_small_R_TypeError bootstrap_engine df_AB "var1" "levels"
           (strs ["A"; "A"; "B"; "B"]) [4; 3; 7; 5] (Str "A") 0 np_mean
           (5 # 100) 1%Z).
  - reflexivity.
  - exact df_AB_valid.
  - lia.
Defined.




(** ** The method attribute, and the statistic and the table *)

Section MethodAttribute.

Context {G : Type} `{RandomState G}.

(** X14.  On an engine whose [method] attribute holds a name that the
    constructor rejects, both operations end in [SystemExit]:
    [run_hypothesis] on a valid call, after it has computed the observed
    statistics and before it draws anything, with the constructor's
    message, and [estimate_ci] at once with its own. *)
Theorem unknown_method_exits (self : Resample) (df : DataFrame)
    (target levels : string) (labs : Series) (qs : list Q)
    (lvl1 lvl2 : cell) (R : Z) (func : Series -> result Q) (f : list Q -> Q)
    (alpha_level : Q) (g : G) :
  method self <> "bootstrap" ->
  method self <> "permutation" ->
  valid_call df target levels labs qs ->
  stat_total func f ->
  Resample_init (method self) = Err (SystemExit msg_method)
  /\ run_hypothesis self df target levels lvl1 lvl2 R func g
     = Err (SystemExit msg_method)
  /\ estimate_ci self df target levels lvl1 R func alpha_level g
     = Err (SystemExit msg_ci).
Proof.
  intros Hb Hp [Hwf Hlev Htgt Hd Hli Hti] Hf.
  apply String.eqb_neq in Hb. apply String.eqb_neq in Hp.
  split; [unfold Resample_init; rewrite Hb, Hp; reflexivity|].
  split; [|unfold estimate_ci, bind; rewrite Hb; reflexivity].
  assert (E1 : (levels =? levels) = true) by apply String.eqb_refl.
  assert (E2 : (target =? target) = true) by apply String.eqb_refl.
  assert (E3 : (target =? levels) = false) by (apply String.eqb_neq; congruence).
  assert (E4 : (levels =? "index") = false) by (apply String.eqb_neq; congruence).
  assert (E5 : (target =? "index") = false) by (apply String.eqb_neq; congruence).
  assert (E6 : ("index" =? levels) = false) by (apply String.eqb_neq; congruence).
  assert (E7 : ("index" =? target) = false) by (apply String.eqb_neq; congruence).
  unfold run_hypothesis. unfold bind at 1. unfold run_hypothesis_body.
  set (m := mask_or (eq_mask labs lvl1) (eq_mask labs lvl2)).
  unfold bind at 1. rewrite (getitem_cols_two _ _ _ _ _ Hlev Htgt). cbn [lift].
  unfold bind at 1. cbn [getitem columns lookup_col colname_eqb]. rewrite E1. cbn [lift].
  unfold bind at 1. cbn [lift]. fold m.
  unfold bind at 1. unfold reset_index, has_col.
  cbn [getitem_mask columns index map fst snd existsb colname_eqb].
  rewrite E6, E7. cbn [orb lift].
  match goal with |- context [getitem (CStr levels) ?d] => set (df3 := d) end.
  assert (D1 : getitem (CStr levels) df3 = Ok (select m labs)).
  { unfold df3, getitem; cbn [columns lookup_col colname_eqb]. rewrite E4, E1. reflexivity. }
  assert (D2 : forall mk, getitem (CStr target) (getitem_mask mk df3)
                          = Ok (select mk (map Num (select m qs)))).
  { intro mk. unfold df3, getitem, getitem_mask.
    cbn [columns lookup_col colname_eqb map fst snd]. rewrite E5, E3, E2.
    rewrite <- select_map. reflexivity. }
  unfold bind at 1. rewrite ?D1. cbn [lift].
  unfold bind at 1. rewrite D2. cbn [lift].
  unfold bind at 1. cbn [lift].
  unfold bind at 1. rewrite D2. cbn [lift].
  rewrite !select_map.
  unfold bind at 1. rewrite Hf. cbn [lift].
  unfold bind at 1. rewrite Hf. cbn [lift].
  unfold bind at 1. rewrite (getitem_cols_one _ _ _ D1). cbn [lift].
  unfold bind at 1. rewrite Hb, Hp. reflexivity.
Qed.

(** X15.  The statistic has no part in the resampling: on a valid call
    with [R >= 1], two statistics that accept every numeric series get the
    same table of resamples from the same generator state and leave the
    generator in the same state. *)
Theorem run_hypothesis_table_independent_of_statistic {V : Type} `{Scalar V}
    (self : Resample)
    (df : DataFrame) (target levels : string) (labs : Series) (qs : list Q)
    (lvl1 lvl2 : cell) (R : Z)
    (func1 func2 : Series -> result V) (f1 f2 : list Q -> V) (g : G) :
  method self = "bootstrap" \/ method self = "permutation" ->
  valid_call df target levels labs qs ->
  stat_total func1 f1 ->
  stat_total func2 f2 ->
  (1 <= R)%Z ->
  exists tbl diff1 p1 diff2 p2 g',
    run_hypothesis self df target levels lvl1 lvl2 R func1 g
    = Ok ((tbl, diff1, p1), g')
    /\ run_hypothesis self df target levels lvl1 lvl2 R func2 g
       = Ok ((tbl, diff2, p2), g').
Proof.
  intros Hm Hv Hf1 Hf2 HR. destruct (method_replace self Hm) as [replace Hm'].
  rewrite (run_hypothesis_expected self replace df target levels labs qs
             lvl1 lvl2 R func1 f1 g Hm' Hv Hf1 HR).
  rewrite (run_hypothesis_expected self replace df target levels labs qs
             lvl1 lvl2 R func2 f2 g Hm' Hv Hf2 HR).
  unfold locals_at_return.
  match goal with
  | |- context [draw_samples ?k ?p ?r ?s] =>
      destruct (draw_samples k p r s) as [ss g']
  end.
  cbn [fst snd resampled_ resampled_diff pval].
  do 6 eexists. split; reflexivity.
Qed.

End MethodAttribute.

(** ** The legacy [Bootstrap.estimate_ci] *)

Section LegacyInterval.

Context {G : Type} `{RandomState G}.

(** X16.  For every data set, label, repetition count, statistic,
    [alpha_level] and generator state, the legacy [Bootstrap.estimate_ci]
    without the dummy flag returns what
    [Resample('bootstrap').estimate_ci] returns on the object's target and
    grouping columns, raises what it raises and leaves the generator in
    the same state. *)
Theorem legacy_estimate_ci_agrees (df : DataFrame)
    (target levels : string) (lvl1 lvl2 level : cell) (B : Z)
    (func : Series -> result Q) (alpha_level : Q) (g : G) :
  Bootstrap_estimate_ci (Bootstrap_init target levels lvl1 lvl2)
    df level B func alpha_level false g
  = estimate_ci (mkResample "bootstrap") df target levels level B func
      alpha_level g.
Proof.
  unfold Bootstrap_estimate_ci, estimate_ci, Bootstrap_init.
  cbn [b_levels b_target method String.eqb Ascii.eqb Bool.eqb].
  cbv [bind lift ret].
  repeat (match goal with
          | |- context [match ?x with Ok _ => _ | Err _ => _ end] =>
              lazymatch x with
              | context [match _ with Ok _ => _ | Err _ => _ end] => fail
              | _ =>
                  let a := fresh "a" in
                  destruct x as [a|?];
                  [try (lazymatch type of a with (_ * _)%type => destruct a end)|]
              end
          end; try reflexivity).
Qed.

(** X17.  The dummy flag of the legacy [Bootstrap.estimate_ci] creates no
    column: with the flag set, a data set without a column named [dummy]
    raises [KeyError], and one with such a column gives what the call
    without the flag gives. *)
Theorem legacy_estimate_ci_dummy_flag (self : Bootstrap) (df : DataFrame)
    (level : cell) (B : Z) (func : Series -> result Q) (alpha_level : Q)
    (g : G) :
  Bootstrap_estimate_ci self df level B func alpha_level true g
  = if has_col (CStr "dummy") df
    then Bootstrap_estimate_ci self df level B func alpha_level false g
    else Err KeyError.
Proof.
  unfold Bootstrap_estimate_ci.
  destruct (has_col (CStr "dummy") df) eqn:Hd.
  - destruct (lookup_col_present _ _ Hd) as [s Es].
    unfold bind at 1. unfold bind at 1. unfold getitem. rewrite Es.
    cbn [lift ret]. reflexivity.
  - unfold bind at 1. unfold bind at 1. unfold getitem.
    rewrite (lookup_col_missing _ _ Hd). reflexivity.
Qed.

End LegacyInterval.

Lemma unknown_method_exits_witness :
  Resample_init "jackknife" = Err (SystemExit msg_method)
  /\ run_hypothesis (mkResample "jackknife") df_AB "var1" "levels"
       (Str "A") (Str "B") 3 np_mean 1%Z = Err (SystemExit msg_method)
  /\ estimate_ci (mkResample "jackknife") df_AB "var1" "levels" (Str "A") 3
       np_mean (5 # 100) 1%Z = Err (SystemExit msg_ci).
Proof.
  apply (unknown_method_exits (mkResample "jackknife") df_AB "var1" "levels"
           (strs ["A"; "A"; "B"; "B"]) [4; 3; 7; 5] (Str "A") (Str "B") 3
           np_mean mean (5 # 100) 1%Z).
  - discriminate.
  - discriminate.
  - exact df_AB_valid.
  - apply numeric_stat_total.
Defined.

Lemma run_hypothesis_table_independent_of_statistic_witness :
  exists tbl diff1 p1 diff2 p2 g',
    run_hypothesis permutation_engine df_AB "var1" "levels" (Str "A") (Str "B")
      3 np_mean 1%Z = Ok ((tbl, diff1, p1), g')
    /\ run_hypothesis permutation_engine df_AB "var1" "levels" (Str "A") (Str "B")
         3 np_max 1%Z = Ok ((tbl, diff2, p2), g').
Proof.
  apply (run_hypothesis_table_independent_of_statistic permutation_engine
           df_AB "var1" "levels" (strs ["A"; "A"; "B"; "B"]) [4; 3; 7; 5]
           (Str "A") (Str "B") 3 np_mean np_max mean maximum 1%Z).
  - right; reflexivity.
  - exact df_AB_valid.
  - apply numeric_stat_total.
  - apply numeric_stat_total.
  - lia.
Defined.
